(** * The go/functions_framework buildpack: build-time adapter

    A shallow embedding of [cmd/go/functions_framework/main.go] and the
    properties of its strategy decision, module wiring, vendored relocation
    and version-gated template selection.  [main] and [detectFn] (lines
    54-64) only dispatch and opt in; they take no part in the build and are
    left out.

    The buildpack drives external collaborators (the [gcp.Context] helpers,
    the Go tool, git, the template engine).  Their answers are taken from a
    [Context] record of oracles indexed by the history of effects issued so
    far; the buildpack's own code is written in a small state monad that
    appends every effect to that history. *)

From Stdlib Require Import String Ascii List Bool ZArith NArith Lia.
Import ListNotations.
Open Scope string_scope.

(** ** Go's [strings] package, on byte strings

    Only the functions the buildpack and the semver parser call.  All
    separators and cut sets used by the callers are ASCII, for which Go's
    rune-wise definitions and the byte-wise ones below agree. *)

Module strings.

(** [strings.Contains(s, substr)]. *)
Fixpoint Contains (s substr : string) : bool :=
  prefix substr s ||
  match s with
  | EmptyString => false
  | String _ s' => Contains s' substr
  end.

(** Membership of a byte in a set of bytes given as a string. *)
Fixpoint ContainsByte (chars : string) (c : ascii) : bool :=
  match chars with
  | EmptyString => false
  | String d chars' => Ascii.eqb c d || ContainsByte chars' c
  end.

(** [strings.ContainsAny(s, chars)]. *)
Fixpoint ContainsAny (s chars : string) : bool :=
  match s with
  | EmptyString => false
  | String c s' => ContainsByte chars c || ContainsAny s' chars
  end.

(** Splitting at a one-byte separator, keeping at most [n] further cuts:
    the part before the first separator and the rest, already split.  The
    result is never empty. *)
Fixpoint splitAt (n : nat) (sep : ascii) (s : string) : string * list string :=
  match s with
  | EmptyString => (EmptyString, [])
  | String c s' =>
      if Ascii.eqb c sep then
        match n with
        | O => let '(hd, tl) := splitAt O sep s' in (String c hd, tl)
        | S n' => let '(hd, tl) := splitAt n' sep s' in (EmptyString, hd :: tl)
        end
      else let '(hd, tl) := splitAt n sep s' in (String c hd, tl)
  end.

(** [strings.Split(s, sep)] for a one-byte [sep]: every separator cuts. *)
Definition Split (s : string) (sep : ascii) : list string :=
  let '(hd, tl) := splitAt (String.length s) sep s in hd :: tl.

(** [strings.SplitN(s, sep, n)] for a one-byte [sep] and [n > 0]: at most
    [n] parts, the last one holding the unsplit remainder. *)
Definition SplitN (s : string) (sep : ascii) (n : nat) : list string :=
  let '(hd, tl) := splitAt (Nat.pred n) sep s in hd :: tl.

(** [strings.Join(elems, sep)]. *)
Definition Join (elems : list string) (sep : string) : string :=
  String.concat sep elems.

(** [strings.TrimPrefix(s, prefix)]. *)
Definition TrimPrefix (s pre : string) : string :=
  if prefix pre s
  then substring (String.length pre) (String.length s - String.length pre) s
  else s.

(** [strings.IndexByte]-style search, as [strings.IndexRune] is used by
    the semver parser with the ASCII runes '+' and '-'. *)
Fixpoint IndexRune (s : string) (c : ascii) : option nat :=
  match s with
  | EmptyString => None
  | String d s' =>
      if Ascii.eqb d c then Some O
      else match IndexRune s' c with
           | Some i => Some (S i)
           | None => None
           end
  end.

(** The UTF-8 encodings of the code points for which [unicode.IsSpace]
    holds: the six ASCII ones, U+0085, U+00A0, U+1680, U+2000..U+200A,
    U+2028, U+2029, U+202F, U+205F and U+3000. *)
Definition bytes (l : list nat) : string :=
  string_of_list_ascii (map ascii_of_nat l).

Definition spaces : list string :=
  map bytes
    [ [9]; [10]; [11]; [12]; [13]; [32];
      [194; 133]; [194; 160]; [225; 154; 128];
      [226; 128; 128]; [226; 128; 129]; [226; 128; 130]; [226; 128; 131];
      [226; 128; 132]; [226; 128; 133]; [226; 128; 134]; [226; 128; 135];
      [226; 128; 136]; [226; 128; 137]; [226; 128; 138];
      [226; 128; 168]; [226; 128; 169]; [226; 128; 175];
      [226; 129; 159]; [227; 128; 128] ].

(** The length of the white-space rune [s] starts with, if any. *)
Definition leadingSpace (s : string) : option nat :=
  match find (fun sp => prefix sp s) spaces with
  | Some sp => Some (String.length sp)
  | None => None
  end.

Fixpoint dropBytes (n : nat) (s : string) : string :=
  match n, s with
  | O, _ => s
  | S n', String _ s' => dropBytes n' s'
  | S _, EmptyString => EmptyString
  end.

(** Trimming on the left; [fuel] bounds the number of runes removed and
    [String.length s] always suffices. *)
Fixpoint trimLeftSpace (fuel : nat) (s : string) : string :=
  match fuel with
  | O => s
  | S fuel' =>
      match leadingSpace s with
      | Some n => trimLeftSpace fuel' (dropBytes n s)
      | None => s
      end
  end.

Definition reverse (s : string) : string :=
  string_of_list_ascii (rev (list_ascii_of_string s)).

(** Trimming on the right looks for a white-space rune ending the string:
    the same search on the reversed string with reversed encodings. *)
Definition trailingSpace (r : string) : option nat :=
  match find (fun sp => prefix (reverse sp) r) spaces with
  | Some sp => Some (String.length sp)
  | None => None
  end.

Fixpoint trimRightSpace (fuel : nat) (r : string) : string :=
  match fuel with
  | O => r
  | S fuel' =>
      match trailingSpace r with
      | Some n => trimRightSpace fuel' (dropBytes n r)
      | None => r
      end
  end.

(** [strings.TrimSpace(s)]. *)
Definition TrimSpace (s : string) : string :=
  let l := trimLeftSpace (String.length s) s in
  reverse (trimRightSpace (String.length l) (reverse l)).

End strings.

(** [strconv.ParseUint(s, 10, 64)]: a non-empty run of decimal digits whose
    value fits 64 bits; [None] stands for the syntax and range errors. *)
Module strconv.

Definition digit (c : ascii) : option N :=
  let n := N_of_ascii c in
  if ((48 <=? n) && (n <=? 57))%N then Some (n - 48)%N else None.

Fixpoint digits (acc : N) (s : string) : option N :=
  match s with
  | EmptyString => Some acc
  | String c s' =>
      match digit c with
      | Some d => digits (acc * 10 + d)%N s'
      | None => None
      end
  end.

Definition ParseUint (s : string) : option N :=
  match s with
  | EmptyString => None
  | _ =>
      match digits 0%N s with
      | Some n => if (n <? 2 ^ 64)%N then Some n else None
      | None => None
      end
  end.

End strconv.

(** ** The semantic-version library ([github.com/blang/semver])

    A third-party dependency of the buildpack, embedded from its
    [semver.go] (the v3.5 line the Go module graph of the repository
    selects): [ParseTolerant], [Parse], [NewPRVersion], [Compare], [GE]. *)

Module semver.

Definition numbers : string := "0123456789".
Definition alphas : string :=
  "abcdefghijklmnopqrstuvwxyzABCDEFGHIJKLMNOPQRSTUVWXYZ-".
Definition alphanum : string := alphas ++ numbers.

(** The error sites of the parser, each with the offending text. *)
Inductive ParseError : Type :=
| ErrEmptyVersion
| ErrNoMajorMinorPatch
| ErrShortVersionMeta
| ErrInvalidCharacter (field s : string)
| ErrLeadingZeroes (field s : string)
| ErrParseUint (s : string)
| ErrPrereleaseEmpty
| ErrBuildEmpty.

Record PRVersion : Type := mkPRVersion
  { VersionStr : string; VersionNum : N; IsNum : bool }.

Record Version : Type := mkVersion
  { Major : N; Minor : N; Patch : N;
    Pre : list PRVersion; Build : list string }.

Fixpoint containsOnly (s set : string) : bool :=
  match s with
  | EmptyString => true
  | String c s' => strings.ContainsByte set c && containsOnly s' set
  end.

Definition hasLeadingZeroes (s : string) : bool :=
  match s with
  | String c (String _ _) => Ascii.eqb c "0"
  | _ => false
  end.

(** The three checks every numeric component goes through. *)
Definition parseNumber (field s : string) : N + ParseError :=
  if negb (containsOnly s numbers) then inr (ErrInvalidCharacter field s)
  else if hasLeadingZeroes s then inr (ErrLeadingZeroes field s)
  else match strconv.ParseUint s with
       | Some n => inl n
       | None => inr (ErrParseUint s)
       end.

Definition NewPRVersion (s : string) : PRVersion + ParseError :=
  if (String.length s =? 0)%nat then inr ErrPrereleaseEmpty
  else if containsOnly s numbers then
    if hasLeadingZeroes s then inr (ErrLeadingZeroes "prerelease" s)
    else match strconv.ParseUint s with
         | Some num => inl (mkPRVersion "" num true)
         | None => inr (ErrParseUint s)
         end
  else if containsOnly s alphanum then inl (mkPRVersion s 0%N false)
  else inr (ErrInvalidCharacter "prerelease" s).

Fixpoint parsePre (l : list string) : list PRVersion + ParseError :=
  match l with
  | [] => inl []
  | prstr :: l' =>
      match NewPRVersion prstr with
      | inr e => inr e
      | inl parsedPR =>
          match parsePre l' with
          | inr e => inr e
          | inl rest => inl (parsedPR :: rest)
          end
      end
  end.

Fixpoint parseBuild (l : list string) : list string + ParseError :=
  match l with
  | [] => inl []
  | str :: l' =>
      if (String.length str =? 0)%nat then inr ErrBuildEmpty
      else if negb (containsOnly str alphanum)
      then inr (ErrInvalidCharacter "build meta data" str)
      else match parseBuild l' with
           | inr e => inr e
           | inl rest => inl (str :: rest)
           end
  end.

(** Cuts [s] at the first occurrence of [c]: the text before it, and the
    dot-separated pieces after it ([[]] when [c] does not occur). *)
Definition cutMeta (s : string) (c : ascii) : string * list string :=
  match strings.IndexRune s c with
  | Some i =>
      (substring 0 i s,
       strings.Split (substring (S i) (String.length s - S i) s) ".")
  | None => (s, [])
  end.

Definition Parse (s : string) : Version + ParseError :=
  if (String.length s =? 0)%nat then inr ErrEmptyVersion
  else match strings.SplitN s "." 3 with
  | [p0; p1; p2] =>
      match parseNumber "major number" p0 with
      | inr e => inr e
      | inl major =>
      match parseNumber "minor number" p1 with
      | inr e => inr e
      | inl minor =>
          let '(patchStr, build) := cutMeta p2 "+" in
          let '(patchStr, prerelease) := cutMeta patchStr "-" in
          match parseNumber "patch number" patchStr with
          | inr e => inr e
          | inl patch =>
          match parsePre prerelease with
          | inr e => inr e
          | inl pre =>
          match parseBuild build with
          | inr e => inr e
          | inl bld => inl (mkVersion major minor patch pre bld)
          end end end
      end end
  | _ => inr ErrNoMajorMinorPatch
  end.

(** Appends "0" components until there are three. *)
Definition fillUp (parts : list string) : list string :=
  parts ++ repeat "0" (3 - List.length parts).

Definition ParseTolerant (s : string) : Version + ParseError :=
  let s := strings.TrimSpace s in
  let s := strings.TrimPrefix s "v" in
  let parts := strings.SplitN s "." 3 in
  if (List.length parts <? 3)%nat then
    if strings.ContainsAny (last parts "") "+-" then inr ErrShortVersionMeta
    else Parse (strings.Join (fillUp parts) ".")
  else Parse s.

Definition cmpN (a b : N) : Z :=
  if (a =? b)%N then 0%Z else if (b <? a)%N then 1%Z else (-1)%Z.

Definition PRVersion_Compare (v o : PRVersion) : Z :=
  if IsNum v && negb (IsNum o) then (-1)%Z
  else if negb (IsNum v) && IsNum o then 1%Z
  else if IsNum v && IsNum o then cmpN (VersionNum v) (VersionNum o)
  else match String.compare (VersionStr v) (VersionStr o) with
       | Eq => 0%Z
       | Gt => 1%Z
       | Lt => (-1)%Z
       end.

(** The loop over the common prefix of two prerelease lists, and the
    length comparison that follows it. *)
Fixpoint comparePre (v o : list PRVersion) : Z :=
  match v, o with
  | [], [] => 0%Z
  | [], _ :: _ => (-1)%Z
  | _ :: _, [] => 1%Z
  | a :: v', b :: o' =>
      let comp := PRVersion_Compare a b in
      if (comp =? 0)%Z then comparePre v' o'
      else if (comp =? 1)%Z then 1%Z else (-1)%Z
  end.

Definition Compare (v o : Version) : Z :=
  if negb (Major v =? Major o)%N then
    (if (Major o <? Major v)%N then 1 else -1)%Z
  else if negb (Minor v =? Minor o)%N then
    (if (Minor o <? Minor v)%N then 1 else -1)%Z
  else if negb (Patch v =? Patch o)%N then
    (if (Patch o <? Patch v)%N then 1 else -1)%Z
  else match Pre v, Pre o with
       | [], [] => 0%Z
       | [], _ :: _ => 1%Z
       | _ :: _, [] => (-1)%Z
       | pv, po => comparePre pv po
       end.

Definition GE (v o : Version) : bool := (0 <=? Compare v o)%Z.

End semver.

(** ** Data of the buildpack *)

(** The constants of [main.go]. *)
Definition layerName : string := "functions-framework".
Definition functionsFrameworkModule : string :=
  "github.com/GoogleCloudPlatform/functions-framework-go".
Definition functionsFrameworkPackage : string :=
  functionsFrameworkModule ++ "/funcframework".
Definition functionsFrameworkVersion : string := "v1.1.0".
Definition appName : string := "serverless_function_app".
Definition fnSourceDir : string := "serverless_function_source_code".

(** [fnInfo]: the record handed to the templates. *)
Record fnInfo : Type := mkFnInfo
  { Source : string; Target : string; Package : string }.

(** The two parsed templates, [tmplV0] and [tmplV1_1]. *)
Inductive Template : Type := tmplV0 | tmplV1_1.

(** Options of a command invocation ([gcp.ExecOption]). *)
Inductive ExecOption : Type :=
| WithUserTimingAttribution
| WithUserAttribution
| WithWorkDir (dir : string)
| WithEnv (env : list string).

(** The fields of [gcp.ExecResult] the buildpack reads. *)
Record ExecResult : Type := mkExecResult
  { Stdout : string; Stderr : string }.

(** Go [error] values the buildpack builds or passes on.  [Errorf_w] wraps
    its cause ([%w]); [Errorf_v] formats it ([%v]). *)
Inductive error : Type :=
| UserErrorf (msg : string)
| Errorf_w (msg : string) (cause : error)
| Errorf_v (msg : string) (cause : error)
| SemverError (e : semver.ParseError)
| ToolError (msg : string).

(** What [ctx.ExecWithErr] hands back: a result and no error, or an error
    with a result that may be nil. *)
Inductive ExecOutcome : Type :=
| ExecOk (res : ExecResult)
| ExecFail (res : option ExecResult) (err : error).

(** The effects of a build, in the order they are issued. *)
Inductive event : Type :=
| LayerInit (name : string)
| Setenv (key value : string)
| SetFunctionsEnvVars
| RemoveAll (path : string)
| MkdirAll (path : string) (perm : Z)
| Exec (cmd : list string) (opts : list ExecOption)
| TempDir (dir pattern name : string)
| Rename (old new : string)
| Logf (msg : string)
| Warnf (msg : string)
| CreateFile (path : string)
| Close (path : string)
| Execute (tmpl : Template) (path : string) (data : fnInfo)
| AddWebProcess (cmd : list string).

(** The layer [l] of the build ([libcnb.Layer]): the fields written here.
    [Override] keeps the latest binding of a name first. *)
Record Layer : Type := mkLayer
  { Build : bool; BuildEnvironment : list (string * string) }.

Definition Override (name value : string) (l : Layer) : Layer :=
  mkLayer (Build l) ((name, value) :: BuildEnvironment l).

(** The collaborators of the buildpack.  Code outside [main.go]
    ([pkg/gcpbuildpack], [pkg/golang], [pkg/env], the Go tool chain run
    through commands, [os], [path/filepath], [text/template]) is a parameter
    of the development: every answer may depend on the effects issued
    before the question. *)
Record Context : Type := mkContext
  { ApplicationRoot : string;
    BuildpackRoot : string;
    LayerPath : string -> string;
    Getenv : string -> string;
    FileExists : list event -> list string -> bool;
    Stat : list event -> string -> option Z;
    SupportsNoGoMod : list event -> bool;
    ExecWithErr : list event -> list string -> list ExecOption -> ExecOutcome;
    MkTemp : list event -> string -> string -> string;
    Render : list event -> Template -> string -> fnInfo -> option error;
    Join : list string -> string;
    env_FunctionTarget : string;
    env_Buildable : string;
    golang_OutBin : string }.

(** ** The build monad: state, and an exit that unwinds *)

Record State : Type := mkState { history : list event; layer : Layer }.

(** A computation returns to its caller, or the build ends with an error:
    the exit of a failing [ctx.Exec].  Go [error] results are values of
    [Returns]. *)
Inductive Outcome (A : Type) : Type :=
| Returns (a : A)
| Exits (err : error).
Arguments Returns {A} a.
Arguments Exits {A} err.

Definition M (A : Type) : Type := State -> Outcome A * State.

Definition ret {A} (a : A) : M A := fun s => (Returns a, s).

Definition bind {A B} (m : M A) (k : A -> M B) : M B :=
  fun s =>
    match m s with
    | (Returns a, s') => k a s'
    | (Exits e, s') => (Exits e, s')
    end.

Notation "x <- m ;; k" := (bind m (fun x => k))
  (at level 61, m at next level, right associativity).
Notation "m ;; k" := (bind m (fun _ => k))
  (at level 61, right associativity).

(** Issues one effect. *)
Definition emit (e : event) : M unit :=
  fun s => (Returns tt, mkState (history s ++ [e]) (layer s)).

(** Asks a collaborator a question that has no effect. *)
Definition ask {A} (q : list event -> A) : M A :=
  fun s => (Returns (q (history s)), s).

(** Updates the layer behind the pointer [l]. *)
Definition withLayer (f : Layer -> Layer) : M unit :=
  fun s => (Returns tt, mkState (history s) (f (layer s))).

(** Go's [defer]: the deferred call runs when the rest of the function is
    left, by a return or by an exit that unwinds (see [ctx_Exec]), and the
    function's result is that of the rest. *)
Definition defer {A} (deferred : M unit) (rest : M A) : M A :=
  fun s =>
    match rest s with
    | (o, s') =>
        match deferred s' with
        | (Returns _, s'') => (o, s'')
        | (Exits e, s'') => (Exits e, s'')
        end
    end.

(** ** The helpers of [gcp.Context] *)

Section Buildpack.

Variable ctx : Context.

(** [ctx.ExecWithErr]: runs the command and hands back its outcome. *)
Definition ctx_ExecWithErr (cmd : list string) (opts : list ExecOption)
  : M ExecOutcome :=
  fun s =>
    (Returns (ExecWithErr ctx (history s) cmd opts),
     mkState (history s ++ [Exec cmd opts]) (layer s)).

(** Modelled from the spec: [ctx.Exec] of [pkg/gcpbuildpack], which is
    not part of the sources at hand.  A failing invocation aborts the
    pipeline immediately, with no retry; a successful one yields the
    command's result.  The abort leaves the functions on its way with
    their scoped temporaries removed (every exit path, success or
    failure): it unwinds as a Go panic does, and deferred calls run. *)
Definition ctx_Exec (cmd : list string) (opts : list ExecOption)
  : M ExecResult :=
  o <- ctx_ExecWithErr cmd opts ;;
  match o with
  | ExecOk res => ret res
  | ExecFail _ err => fun s => (Exits err, s)
  end.

Definition ctx_FileExists (elem : list string) : M bool :=
  ask (fun h => FileExists ctx h elem).

Definition ctx_TempDir (dir pattern : string) : M string :=
  name <- ask (fun h => MkTemp ctx h dir pattern) ;;
  emit (TempDir dir pattern name) ;;
  ret name.

Definition ctx_RemoveAll (path : string) : M unit := emit (RemoveAll path).
Definition ctx_MkdirAll (path : string) (perm : Z) : M unit :=
  emit (MkdirAll path perm).
Definition ctx_Rename (old new : string) : M unit := emit (Rename old new).
Definition ctx_Logf (msg : string) : M unit := emit (Logf msg).
Definition ctx_Warnf (msg : string) : M unit := emit (Warnf msg).
Definition ctx_CreateFile (path : string) : M unit := emit (CreateFile path).
Definition f_Close (path : string) : M unit := emit (Close path).

(** [tmpl.Execute(f, fn)], [f] being the file created at [path]. *)
Definition tmpl_Execute (tmpl : Template) (path : string) (fn : fnInfo)
  : M (option error) :=
  r <- ask (fun h => Render ctx h tmpl path fn) ;;
  emit (Execute tmpl path fn) ;;
  ret r.

(** [info.Mode().Perm()&0200 == 0]: the owner-write bit is clear
    (octal 0777 is 511, 0200 is 128; 0755 below is 493). *)
Definition Perm (mode : Z) : Z := Z.land mode 511.
Definition ownerWriteClear (mode : Z) : bool :=
  (Z.land (Perm mode) 128 =? 0)%Z.

(** [%q] of a text that needs no escape. *)
Definition fmt_q (s : string) : string :=
  String (ascii_of_nat 34) (s ++ String (ascii_of_nat 34) EmptyString).

(** ** The functions of [main.go], leaves first *)

(** [extractPackageNameInDir] (lines 240-245). *)
Definition extractPackageNameInDir (source : string) : M string :=
  let scriptDir := Join ctx [BuildpackRoot ctx; "converter"; "get_package"] in
  cacheDir <- ctx_TempDir "" appName ;;
  defer (ctx_RemoveAll cacheDir)
    (res <- ctx_Exec ["go"; "run"; "main"; "-dir"; source]
              [WithEnv ["GOPATH=" ++ scriptDir; "GOCACHE=" ++ cacheDir];
               WithWorkDir scriptDir; WithUserAttribution] ;;
     ret (Stdout res)).

(** [frameworkSpecifiedVersion] (lines 221-233): the version and the
    error of the Go pair. *)
Definition frameworkSpecifiedVersion (fnSource : string)
  : M (string * option error) :=
  o <- ctx_ExecWithErr
         ["go"; "list"; "-m"; "-f"; "{{.Version}}"; functionsFrameworkModule]
         [WithWorkDir fnSource] ;;
  match o with
  | ExecOk res =>
      let v := strings.TrimSpace (Stdout res) in
      ctx_Logf ("Found framework version " ++ v) ;;
      ret (v, None)
  | ExecFail res err =>
      if match res with
         | Some r => strings.Contains (Stderr r) "not a known dependency"
         | None => false
         end
      then ctx_Logf "No framework version specified, using default" ;;
           ret ("", None)
      else ret ("", Some err)
  end.

(** The template chosen for a parsed version (lines 205-212). *)
Definition selectTemplate (requestedVersion v1_1 : semver.Version)
  : Template :=
  if semver.GE requestedVersion v1_1 then tmplV1_1 else tmplV0.

(** [createMainGoFile] (lines 194-218). *)
Definition createMainGoFile (fn : fnInfo) (main version : string)
  : M (option error) :=
  ctx_CreateFile main ;;
  defer (f_Close main)
    match semver.ParseTolerant version with
    | inr err =>
        ret (Some (Errorf_w
               ("unable to parse framework version string " ++ version)
               (SemverError err)))
    | inl requestedVersion =>
        match semver.ParseTolerant "v1.1.0" with
        | inr err =>
            ret (Some (Errorf_v
                   "unable to parse framework version string v1.1.0"
                   (SemverError err)))
        | inl v1_1 =>
            let tmpl := selectTemplate requestedVersion v1_1 in
            r <- tmpl_Execute tmpl main fn ;;
            match r with
            | Some err => ret (Some (Errorf_v "executing template" err))
            | None => ret None
            end
        end
    end.

(** [createMainGoMod] (lines 111-141). *)
Definition createMainGoMod (fn : fnInfo) : M (option error) :=
  ctx_Exec ["go"; "mod"; "init"; appName] [] ;;
  res <- ctx_Exec ["go"; "list"; "-m"] [WithWorkDir (Source fn)] ;;
  let fnMod := Stdout res in
  let parts := strings.Split fnMod "/" in
  if (0 <? List.length parts)%nat
     && negb (strings.Contains (hd "" parts) ".")
  then ret (Some (UserErrorf
         ("the module path in the function's go.mod must contain a dot in the first path element before a slash, e.g. example.com/module, found: "
          ++ fnMod)))
  else
    inRoot <- ctx_FileExists [ApplicationRoot ctx; Package fn] ;;
    let fn := mkFnInfo (Source fn) (Target fn)
                (if inRoot then fnMod ++ "/" ++ Package fn else fnMod) in
    ctx_Exec ["go"; "mod"; "edit"; "-require"; fnMod ++ "@v0.0.0"] [] ;;
    ctx_Exec ["go"; "mod"; "edit"; "-replace";
              fnMod ++ "@v0.0.0=" ++ Source fn] [] ;;
    r <- frameworkSpecifiedVersion (Source fn) ;;
    match r with
    | (_, Some err) =>
        ret (Some (Errorf_w
               "checking for functions framework dependency in go.mod" err))
    | (version, None) =>
        version <-
          (if String.eqb version ""
           then ctx_Exec ["go"; "get";
                          functionsFrameworkModule ++ "@"
                          ++ functionsFrameworkVersion]
                  [WithUserAttribution] ;;
                ret functionsFrameworkVersion
           else ret version) ;;
        createMainGoFile fn (Join ctx [ApplicationRoot ctx; "main.go"]) version
    end.

(** [createMainVendored] (lines 150-192); the pointer [l] is the layer of
    the state. *)
Definition createMainVendored (fn : fnInfo) : M (option error) :=
  withLayer (fun l => mkLayer true (BuildEnvironment l)) ;;
  withLayer (Override "GOPATH" (ApplicationRoot ctx)) ;;
  let gopath := ApplicationRoot ctx in
  let gopathSrc := Join ctx [gopath; "src"] in
  ctx_MkdirAll gopathSrc 493 ;;
  withLayer (Override (env_Buildable ctx) (appName ++ "/main")) ;;
  let appPath := Join ctx [gopathSrc; appName; "main"] in
  ctx_MkdirAll appPath 493 ;;
  ctx_Rename (Source fn) (Join ctx [gopathSrc; Package fn]) ;;
  let fnVendoredPath := Join ctx [gopathSrc; Package fn; "vendor"] in
  let fnFrameworkVendoredPath :=
    Join ctx [fnVendoredPath; functionsFrameworkPackage] in
  vendored <- ctx_FileExists [fnFrameworkVendoredPath] ;;
  if vendored then
    ctx_Logf "Found function with vendored dependencies including functions-framework" ;;
    ctx_Exec ["cp"; "-r"; fnVendoredPath; appPath]
      [WithUserTimingAttribution] ;;
    createMainGoFile fn (Join ctx [appPath; "main.go"]) "v0.0.0"
  else
    ctx_Logf "Found function with vendored dependencies excluding functions-framework" ;;
    ctx_Warnf ("Your vendored dependencies do not contain the functions framework ("
               ++ functionsFrameworkPackage
               ++ "). If there are conflicts between the vendored packages and the dependencies of the framework, you may see encounter unexpected issues.") ;;
    cache <- ctx_TempDir "" appName ;;
    defer (ctx_RemoveAll cache)
      (ctx_Exec ["go"; "get"; functionsFrameworkPackage]
         [WithEnv ["GOPATH=" ++ gopath; "GOCACHE=" ++ cache];
          WithUserAttribution] ;;
       ctx_Exec ["git"; "checkout"; functionsFrameworkVersion]
         [WithWorkDir (Join ctx [gopathSrc; functionsFrameworkModule]);
          WithUserAttribution] ;;
       createMainGoFile fn (Join ctx [appPath; "main.go"])
         functionsFrameworkVersion).

(** [buildFn], first part (lines 67-86): the layer, the environment, the
    relocation of the function source and the [fnInfo] of the build. *)
Definition buildFn_relocate : M fnInfo :=
  emit (LayerInit layerName) ;;
  emit (Setenv "GOPATH" (LayerPath ctx layerName)) ;;
  emit SetFunctionsEnvVars ;;
  let fnTarget := Getenv ctx (env_FunctionTarget ctx) in
  ctx_RemoveAll fnSourceDir ;;
  ctx_MkdirAll fnSourceDir 493 ;;
  let command :=
    "find . -mindepth 1 -not -name " ++ fnSourceDir
    ++ " -prune -not -name " ++ fmt_q ".google*"
    ++ " -prune -exec mv -t " ++ fnSourceDir ++ " {} +" in
  ctx_Exec ["bash"; "-c"; command] [WithUserTimingAttribution] ;;
  let fnSource := Join ctx [ApplicationRoot ctx; fnSourceDir] in
  package <- extractPackageNameInDir fnSource ;;
  ret (mkFnInfo fnSource fnTarget package).

(** The tail of [buildFn] after a strategy ran (lines 94-96, 102-108): its
    error is returned, otherwise the web process is registered. *)
Definition buildFn_finish (strategy : M (option error)) : M (option error) :=
  err <- strategy ;;
  match err with
  | Some e => ret (Some e)
  | None => emit (AddWebProcess [golang_OutBin ctx]) ;; ret None
  end.

(** [buildFn], second part (lines 88-108): the strategy decision.  The
    [os.Stat] of line 97 answers with the mode bits, or [None] for its
    error. *)
Definition buildFn_strategy (fn : fnInfo) : M (option error) :=
  let goMod := Join ctx [Source fn; "go.mod"] in
  present <- ctx_FileExists [goMod] ;;
  if negb present then
    supported <- ask (SupportsNoGoMod ctx) ;;
    if negb supported
    then ret (Some (UserErrorf "function build requires go.mod file"))
    else buildFn_finish (createMainVendored fn)
  else
    info <- ask (fun h => Stat ctx h goMod) ;;
    if match info with
       | Some mode => ownerWriteClear mode
       | None => false
       end
    then ret (Some (UserErrorf "go.mod exists but is not writable"))
    else buildFn_finish (createMainGoMod fn).

(** [buildFn] (lines 66-109). *)
Definition buildFn : M (option error) :=
  fn <- buildFn_relocate ;;
  buildFn_strategy fn.

End Buildpack.

(** ** Vocabulary of the statements *)

(** The effects a computation issues when started in [s]. *)
Definition issued {A} (m : M A) (s : State) : list event :=
  skipn (List.length (history s)) (history (snd (m s))).

(** The commands run in a history, oldest first. *)
Fixpoint commands (h : list event) : list (list string) :=
  match h with
  | [] => []
  | Exec cmd _ :: h' => cmd :: commands h'
  | _ :: h' => commands h'
  end.

(** The templates rendered in a history, oldest first. *)
Fixpoint rendered (h : list event) : list Template :=
  match h with
  | [] => []
  | Execute tmpl _ _ :: h' => tmpl :: rendered h'
  | _ :: h' => rendered h'
  end.

(** The temporary directories of a history that were created and not
    removed since, on top of those in [live]. *)
Fixpoint liveTempDirs (h : list event) (live : list string) : list string :=
  match h with
  | [] => live
  | TempDir _ _ name :: h' => liveTempDirs h' (name :: live)
  | RemoveAll path :: h' => liveTempDirs h' (remove string_dec path live)
  | _ :: h' => liveTempDirs h' live
  end.

(** A step cleans up after itself: no temporary directory it created is
    left when it ends, the removal of each being its last effect. *)
Definition removesItsTempDirs (effects : list event) : Prop :=
  liveTempDirs effects [] = []
  /\ forall dir pattern name,
       In (TempDir dir pattern name) effects ->
       exists before body,
         effects
         = (before ++ TempDir dir pattern name :: body
              ++ [RemoveAll name])%list.

(** A computation is tidy when, from every state, it only appends to the
    history and leaves no temporary directory of its own behind. *)
Definition tidy {A} (m : M A) : Prop :=
  forall h l, exists d,
    history (snd (m (mkState h l))) = (h ++ d)%list
    /\ liveTempDirs d [] = [].

Fixpoint isPrefix (pre l : list string) : bool :=
  match pre, l with
  | [], _ => true
  | p :: pre', x :: l' => String.eqb p x && isPrefix pre' l'
  | _ :: _, [] => false
  end.

(** The commands of the buildpack that create or change files where they
    run: [go mod init] writes a new go.mod, [go mod edit] rewrites it,
    [go get] downloads sources, [cp], [git checkout] and the relocating
    [bash] script change the tree.  [go list] and [go run] only answer. *)
Definition writingCommands : list (list string) :=
  [ ["go"; "mod"; "init"]; ["go"; "mod"; "edit"]; ["go"; "get"];
    ["cp"]; ["git"; "checkout"]; ["bash"] ].

(** The effects that write to the file system. *)
Definition writesFiles (e : event) : bool :=
  match e with
  | Exec cmd _ => existsb (fun pre => isPrefix pre cmd) writingCommands
  | MkdirAll _ _ | TempDir _ _ _ | Rename _ _ | CreateFile _
  | Execute _ _ _ => true
  | _ => false
  end.

(** The commands of [main.go], by name. *)
Definition cmdModInit : list string := ["go"; "mod"; "init"; appName].
Definition cmdListModule : list string := ["go"; "list"; "-m"].
Definition cmdRequire (fnMod : string) : list string :=
  ["go"; "mod"; "edit"; "-require"; fnMod ++ "@v0.0.0"].
Definition cmdReplace (fnMod source : string) : list string :=
  ["go"; "mod"; "edit"; "-replace"; fnMod ++ "@v0.0.0=" ++ source].
Definition cmdListFramework : list string :=
  ["go"; "list"; "-m"; "-f"; "{{.Version}}"; functionsFrameworkModule].
Definition cmdGetFramework : list string :=
  ["go"; "get"; functionsFrameworkModule ++ "@" ++ functionsFrameworkVersion].
Definition cmdFetch : list string := ["go"; "get"; functionsFrameworkPackage].
Definition cmdCheckout : list string :=
  ["git"; "checkout"; functionsFrameworkVersion].
Definition cmdCopy (fnVendoredPath appPath : string) : list string :=
  ["cp"; "-r"; fnVendoredPath; appPath].

(** The first slash-separated segment of a module path. *)
Definition firstSegment (fnMod : string) : string :=
  hd "" (strings.Split fnMod "/").

(** The two user errors of the strategy decision and that of the wiring. *)
Definition errNoGoMod : error :=
  UserErrorf "function build requires go.mod file".
Definition errNotWritable : error :=
  UserErrorf "go.mod exists but is not writable".
Definition errModulePath (fnMod : string) : error :=
  UserErrorf
    ("the module path in the function's go.mod must contain a dot in the first path element before a slash, e.g. example.com/module, found: "
     ++ fnMod).

(** The threshold of the template selection, parsed. *)
Definition v1_1_0 : semver.Version := semver.mkVersion 1 1 0 [] [].

(** The paths of the vendored layout (lines 153-165). *)
Section VendoredPaths.
Variable ctx : Context.
Variable fn : fnInfo.
Definition gopathSrc : string := Join ctx [ApplicationRoot ctx; "src"].
Definition appPath : string := Join ctx [gopathSrc; appName; "main"].
Definition fnVendoredPath : string :=
  Join ctx [gopathSrc; Package fn; "vendor"].
Definition fnFrameworkVendoredPath : string :=
  Join ctx [fnVendoredPath; functionsFrameworkPackage].
Definition vendoredMain : string := Join ctx [appPath; "main.go"].

(** The effects and the layer of [createMainVendored] up to the test for
    a vendored framework (lines 151-162). *)
Definition relocation : list event :=
  [MkdirAll gopathSrc 493; MkdirAll appPath 493;
   Rename (Source fn) (Join ctx [gopathSrc; Package fn])].
Definition vendoredLayer (l : Layer) : Layer :=
  Override (env_Buildable ctx) (appName ++ "/main")
    (Override "GOPATH" (ApplicationRoot ctx)
       (mkLayer true (BuildEnvironment l))).
End VendoredPaths.

(** The effects that open [createMainGoMod] (lines 112-114), its two
    dependency edits (lines 127-128), and the entry point it writes. *)
Definition identityQuery (fn : fnInfo) : list event :=
  [Exec cmdModInit []; Exec cmdListModule [WithWorkDir (Source fn)]].
Definition dependencyEdits (fn : fnInfo) (fnMod : string) : list event :=
  [Exec (cmdRequire fnMod) []; Exec (cmdReplace fnMod (Source fn)) []].
Definition rootMain (ctx : Context) : string :=
  Join ctx [ApplicationRoot ctx; "main.go"].

(** The end of [createMainGoMod] (lines 130-140), on the record [fn] that
    carries the import path: the framework version is looked up, the
    framework added when none is declared, and the entry point rendered. *)
Definition resolveAndRender (ctx : Context) (fn : fnInfo) : M (option error) :=
  r <- frameworkSpecifiedVersion ctx (Source fn) ;;
  match r with
  | (_, Some err) =>
      ret (Some (Errorf_w
             "checking for functions framework dependency in go.mod" err))
  | (version, None) =>
      version <-
        (if String.eqb version ""
         then ctx_Exec ctx cmdGetFramework [WithUserAttribution] ;;
              ret functionsFrameworkVersion
         else ret version) ;;
      createMainGoFile ctx fn (rootMain ctx) version
  end.

(** The messages of [createMainVendored] (lines 172, 176, 177). *)
Definition logIncluding : string :=
  "Found function with vendored dependencies including functions-framework".
Definition logExcluding : string :=
  "Found function with vendored dependencies excluding functions-framework".
Definition warnNoFramework : string :=
  "Your vendored dependencies do not contain the functions framework ("
  ++ functionsFrameworkPackage
  ++ "). If there are conflicts between the vendored packages and the dependencies of the framework, you may see encounter unexpected issues.".

(** The effects of the two branches of [createMainVendored] before the
    renderer is called: the copy of the vendor tree, or the fetch into the
    cache directory [cache] and the checkout of the pinned tag. *)
Section VendoredBranches.
Variable ctx : Context.
Variable fn : fnInfo.

Definition copyVendor : event :=
  Exec (cmdCopy (fnVendoredPath ctx fn) (appPath ctx))
    [WithUserTimingAttribution].
Definition fetchOpts (cache : string) : list ExecOption :=
  [WithEnv ["GOPATH=" ++ ApplicationRoot ctx; "GOCACHE=" ++ cache];
   WithUserAttribution].
Definition checkoutOpts : list ExecOption :=
  [WithWorkDir (Join ctx [gopathSrc ctx; functionsFrameworkModule]);
   WithUserAttribution].

Definition includingBranch : list event :=
  [Logf logIncluding; copyVendor].
Definition excludingBranch (cache : string) : list event :=
  [Logf logExcluding; Warnf warnNoFramework; TempDir "" appName cache;
   Exec cmdFetch (fetchOpts cache); Exec cmdCheckout checkoutOpts].

(** The history when the vendored framework is looked for, and the
    directory the cache of the fetch gets. *)
Definition relocated (h : list event) : list event :=
  h ++ relocation ctx fn.
Definition fetchCache (h : list event) : string :=
  MkTemp ctx (relocated h ++ [Logf logExcluding; Warnf warnNoFramework])
    "" appName.

(** The entry point written by the vendored path. *)
Definition vendoredFile (tmpl : Template) : list event :=
  [CreateFile (vendoredMain ctx); Execute tmpl (vendoredMain ctx) fn;
   Close (vendoredMain ctx)].
End VendoredBranches.

(** ** A concrete build, for examples

    An application root [/workspace] whose relocated source declares the
    module [fnMod]; [present], [mode], [supports], [vendored] and [inRoot]
    settle the file-system questions and [fw] the framework lookup.  Every
    other command succeeds, the extractor answering package [fn]. *)
Section Demo.
Variables (present : bool) (mode : option Z)
          (supports vendored inRoot : bool)
          (fnMod : string) (fw : ExecOutcome).

Definition demoExec (cmd : list string) : ExecOutcome :=
  if isPrefix cmdListFramework cmd then fw
  else if isPrefix cmdListModule cmd then ExecOk (mkExecResult fnMod "")
  else if isPrefix ["go"; "run"] cmd then ExecOk (mkExecResult "fn" "")
  else ExecOk (mkExecResult "" "").

Definition demoContext : Context :=
  {| ApplicationRoot := "/workspace";
     BuildpackRoot := "/buildpack";
     LayerPath := fun name => "/layers/" ++ name;
     Getenv := fun _ => "Handler";
     FileExists := fun _ elem =>
       match elem with
       | [p] =>
           if String.eqb p
                "/workspace/serverless_function_source_code/go.mod"
           then present else vendored
       | _ => inRoot
       end;
     Stat := fun _ _ => mode;
     SupportsNoGoMod := fun _ => supports;
     ExecWithErr := fun _ cmd _ => demoExec cmd;
     MkTemp := fun _ _ pattern => "/tmp/" ++ pattern;
     Render := fun _ _ _ _ => None;
     Join := String.concat "/";
     env_FunctionTarget := "FUNCTION_TARGET";
     env_Buildable := "GOOGLE_BUILDABLE";
     golang_OutBin := "/layers/bin/main" |}.
End Demo.

Definition demoFn : fnInfo :=
  mkFnInfo "/workspace/serverless_function_source_code" "Handler" "fn".
Definition emptyLayer : Layer := mkLayer false [].
Definition start : State := mkState [] emptyLayer.

(** The framework is no dependency of the function's module. *)
Definition unknownDependency : ExecOutcome :=
  ExecFail
    (Some (mkExecResult ""
       "go list -m: module github.com/GoogleCloudPlatform/functions-framework-go: not a known dependency"))
    (ToolError "exit status 1").

(** The rejection of the specification at the module path [foo/bar], on
    the concrete build: the wiring fails with the user error and none of
    its effects up to there writes a file. *)
Definition spec_rejects_before_any_write : Prop :=
  let ctx := demoContext true (Some 420%Z) false false false "foo/bar"
               unknownDependency in
  fst (createMainGoMod ctx demoFn start)
  = Returns (Some (errModulePath "foo/bar"))
  /\ forallb (fun e => negb (writesFiles e))
       (issued (createMainGoMod ctx demoFn) start) = true.

(** The thresholding of the specification at [1.1.0-rc1], on the concrete
    build: the V1_1 template is the one rendered. *)
Definition spec_rc_selects_V1_1 : Prop :=
  rendered
    (issued (createMainGoFile
               (demoContext true None false false false "" unknownDependency)
               demoFn "main.go" "1.1.0-rc1") start)
  = [tmplV1_1].

(** ** Vocabulary of the further properties *)

(** Reading a module path from the left, a dot is met before any slash. *)
Fixpoint dotBeforeSlash (s : string) : bool :=
  match s with
  | EmptyString => false
  | String c s' =>
      if Ascii.eqb c "." then true
      else if Ascii.eqb c "/" then false
      else dotBeforeSlash s'
  end.

(** A version is 1.1.0 or later, read off its components: a prerelease
    of 1.1.0 itself is earlier. *)
Definition atLeast_1_1_0 (v : semver.Version) : bool :=
  ((1 <? semver.Major v)
   || ((semver.Major v =? 1)
       && ((1 <? semver.Minor v)
           || ((semver.Minor v =? 1)
               && ((0 <? semver.Patch v)
                   || match semver.Pre v with
                      | [] => true
                      | _ :: _ => false
                      end)))))%N.

(** The renames of a history, oldest first. *)
Fixpoint renames (h : list event) : list (string * string) :=
  match h with
  | [] => []
  | Rename old new :: h' => (old, new) :: renames h'
  | _ :: h' => renames h'
  end.

(** The effects that open [buildFn] (lines 67-75), the command that moves
    the function source (line 78), and the run of the extraction helper
    with the cache directory [cacheDir] (line 244). *)
Definition preparation (ctx : Context) : list event :=
  [LayerInit layerName; Setenv "GOPATH" (LayerPath ctx layerName);
   SetFunctionsEnvVars; RemoveAll fnSourceDir; MkdirAll fnSourceDir 493].
Definition cmdMove : list string :=
  ["bash"; "-c";
   "find . -mindepth 1 -not -name " ++ fnSourceDir
   ++ " -prune -not -name " ++ fmt_q ".google*"
   ++ " -prune -exec mv -t " ++ fnSourceDir ++ " {} +"].
Definition fnSource (ctx : Context) : string :=
  Join ctx [ApplicationRoot ctx; fnSourceDir].
Definition scriptDir (ctx : Context) : string :=
  Join ctx [BuildpackRoot ctx; "converter"; "get_package"].
Definition runHelper (ctx : Context) (cacheDir : string) : event :=
  Exec ["go"; "run"; "main"; "-dir"; fnSource ctx]
    [WithEnv ["GOPATH=" ++ scriptDir ctx; "GOCACHE=" ++ cacheDir];
     WithWorkDir (scriptDir ctx); WithUserAttribution].


(** The effects the module path may issue: commands, log lines, and the
    creation, rendering and closing of the entry point at the application
    root. *)
Definition moduleEffect (ctx : Context) (e : event) : Prop :=
  match e with
  | Exec _ _ | Logf _ => True
  | CreateFile path | Close path | Execute _ path _ => path = rootMain ctx
  | _ => False
  end.

(** The collaborators [ctx], except that every command starting with
    [broken] fails without a result. *)
Definition failing (ctx : Context) (broken : list string) : Context :=
  mkContext (ApplicationRoot ctx) (BuildpackRoot ctx) (LayerPath ctx)
    (Getenv ctx) (FileExists ctx) (Stat ctx) (SupportsNoGoMod ctx)
    (fun h cmd opts =>
       if isPrefix broken cmd then ExecFail None (ToolError "exit status 1")
       else ExecWithErr ctx h cmd opts)
    (MkTemp ctx) (Render ctx) (Join ctx) (env_FunctionTarget ctx)
    (env_Buildable ctx) (golang_OutBin ctx).

(** What holds of every run of [buildFn] from the history [h]: when the
    web process is registered, what the templates receive, how many are
    rendered, which user errors come back, and how the run starts. *)
Definition buildFacts (ctx : Context) (h : list event)
    (run : Outcome (option error) * State) : Prop :=
  let o := fst run in
  let d := skipn (List.length h) (history (snd run)) in
  (In (AddWebProcess [golang_OutBin ctx]) d <-> o = Returns None)
  /\ (forall tmpl path data,
        In (Execute tmpl path data) d ->
        Source data = fnSource ctx
        /\ Target data = Getenv ctx (env_FunctionTarget ctx))
  /\ (List.length (rendered d) <= 1)%nat
  /\ (forall msg,
        o = Returns (Some (UserErrorf msg)) ->
        UserErrorf msg = errNoGoMod \/ UserErrorf msg = errNotWritable
        \/ exists fnMod, UserErrorf msg = errModulePath fnMod)
  /\ (exists rest,
        d = (preparation ctx
             ++ Exec cmdMove [WithUserTimingAttribution] :: rest)%list).

(** The lookup of the framework version fails for a reason of its own. *)
Definition lookupBroken : ExecOutcome :=
  ExecFail (Some (mkExecResult "" "go: cannot find main module"))
    (ToolError "exit status 1").

(** ** Proof tools *)

(** Runs the monadic operations of the goal; the collaborators' answers
    stay as they are. *)
Ltac unfold_monad :=
  cbv [bind ret emit ask withLayer defer ctx_Exec ctx_ExecWithErr
       ctx_FileExists ctx_TempDir ctx_RemoveAll ctx_MkdirAll ctx_Rename
       ctx_Logf ctx_Warnf ctx_CreateFile f_Close tmpl_Execute];
  cbn [history layer].

(** Brings a history back to the form [h ++ [e1; ...; en]]. *)
Ltac norm_history :=
  cbv beta iota; cbn [history layer fst snd Source Target Package];
  rewrite <- ?app_assoc; cbn [app].

Ltac norm_hyps := rewrite <- ?app_assoc in *; cbn [app] in *.

(** Runs the goal along every answer of the collaborators. *)
Ltac run_all :=
  unfold_monad;
  repeat match goal with
         | |- context [match ?x with _ => _ end] =>
             lazymatch x with
             | context [match _ with _ => _ end] => fail
             | _ => destruct x eqn:?
             end; cbv beta iota; cbn [fst snd history layer]
         end.

(** Unfold the vocabulary of the vendored and of the module path. *)
Ltac unfold_vendored :=
  unfold includingBranch, excludingBranch, copyVendor, fetchOpts,
    checkoutOpts, relocation, vendoredLayer, vendoredMain,
    fnFrameworkVendoredPath, fnVendoredPath, appPath, gopathSrc,
    cmdCopy, cmdFetch, cmdCheckout, logIncluding, logExcluding,
    warnNoFramework in *.

Ltac unfold_module :=
  unfold identityQuery, dependencyEdits, rootMain, cmdModInit, cmdListModule,
    cmdRequire, cmdReplace, cmdListFramework, cmdGetFramework in *.

Lemma skipn_length_app (A : Type) (h d : list A) :
  skipn (List.length h) (h ++ d) = d.
Proof. induction h; simpl; auto. Qed.

Lemma issued_state (A : Type) (m : M A) h l o d l' :
  m (mkState h l) = (o, mkState (h ++ d) l') ->
  issued m (mkState h l) = d.
Proof.
  intros E. unfold issued. rewrite E. cbn [snd history].
  apply skipn_length_app.
Qed.

Lemma commands_app h1 h2 :
  commands (h1 ++ h2) = (commands h1 ++ commands h2)%list.
Proof.
  induction h1 as [|e h1 IH]; simpl; auto.
  destruct e; simpl; rewrite ?IH; reflexivity.
Qed.

Lemma Split_first (s : string) :
  strings.Split s "/" = firstSegment s :: tl (strings.Split s "/").
Proof.
  unfold firstSegment, strings.Split.
  destruct (strings.splitAt (String.length s) "/" s). reflexivity.
Qed.

Lemma ParseTolerant_threshold : semver.ParseTolerant "v1.1.0" = inl v1_1_0.
Proof. vm_compute. reflexivity. Qed.

Section Renderer.

Variable ctx : Context.

(** The renderer on a version that parses: the file is created, the
    selected template executed on it, the file closed, and a rendering
    error returned. *)
Lemma createMainGoFile_parsed fn main version v h l :
  semver.ParseTolerant version = inl v ->
  createMainGoFile ctx fn main version (mkState h l) =
  (Returns
     match Render ctx (h ++ [CreateFile main])
             (selectTemplate v v1_1_0) main fn with
     | Some err => Some (Errorf_v "executing template" err)
     | None => None
     end,
   mkState
     (h ++ [CreateFile main;
            Execute (selectTemplate v v1_1_0) main fn; Close main]) l).
Proof.
  intros Hv. unfold createMainGoFile.
  rewrite Hv, ParseTolerant_threshold. unfold_monad.
  destruct (Render ctx (h ++ [CreateFile main])
              (selectTemplate v v1_1_0) main fn);
    norm_history; reflexivity.
Qed.

(** The renderer on a version that does not parse: the file is created
    and closed, nothing is rendered. *)
Lemma createMainGoFile_unparsed fn main version e h l :
  semver.ParseTolerant version = inr e ->
  createMainGoFile ctx fn main version (mkState h l) =
  (Returns (Some (Errorf_w
              ("unable to parse framework version string " ++ version)
              (SemverError e))),
   mkState (h ++ [CreateFile main; Close main]) l).
Proof.
  intros Hv. unfold createMainGoFile. rewrite Hv. unfold_monad.
  norm_history. reflexivity.
Qed.

(** The renderer runs no command, creates no temporary directory and
    renders at most the template its version selects. *)
Lemma createMainGoFile_effects fn main version h l :
  exists d,
    snd (createMainGoFile ctx fn main version (mkState h l))
    = mkState (h ++ d) l
    /\ commands d = [] /\ liveTempDirs d [] = []
    /\ (forall tmpl path data, In (Execute tmpl path data) d ->
          exists v, semver.ParseTolerant version = inl v
                    /\ tmpl = selectTemplate v v1_1_0
                    /\ path = main /\ data = fn).
Proof.
  destruct (semver.ParseTolerant version) as [v|e] eqn:Hv.
  - rewrite (createMainGoFile_parsed _ _ _ _ _ _ Hv). eexists.
    split; [reflexivity|]. repeat split; try reflexivity.
    intros tmpl path data [H|[H|[H|[]]]]; try discriminate.
    inversion H; subst. exists v. auto.
  - rewrite (createMainGoFile_unparsed _ _ _ _ _ _ Hv). eexists.
    split; [reflexivity|]. repeat split; try reflexivity.
    intros tmpl path data [H|[H|[]]]; discriminate.
Qed.

End Renderer.

(** ** Version thresholding (C3) *)

(** C3, counterexample: for the version string [1.1.0-rc1] the renderer
    executes the V0 template, not V1_1: a prerelease of 1.1.0 precedes
    1.1.0 in the order [GE] decides. *)
Lemma createMainGoFile_rc_not_V1_1 : ~ spec_rc_selects_V1_1.
Proof. unfold spec_rc_selects_V1_1. vm_compute. discriminate. Qed.

(** C3, as amended: whatever the context, function record, destination and
    state, [createMainGoFile] creates the file, executes one template on it
    and closes it, and that template is V0 for the version strings
    [1.0.9], [1.1.0-rc1] and [1.0.10], and V1_1 for [1.1.0] and [2.0.0]. *)
Theorem createMainGoFile_thresholds (ctx : Context) (fn : fnInfo)
    (main : string) (s : State) :
  let run version := issued (createMainGoFile ctx fn main version) s in
  let file tmpl := [CreateFile main; Execute tmpl main fn; Close main] in
  run "1.0.9" = file tmplV0
  /\ run "1.1.0" = file tmplV1_1
  /\ run "1.1.0-rc1" = file tmplV0
  /\ run "2.0.0" = file tmplV1_1
  /\ run "1.0.10" = file tmplV0.
Proof.
  destruct s as [h l]. cbv zeta.
  assert (R : forall version v tmpl,
             semver.ParseTolerant version = inl v ->
             selectTemplate v v1_1_0 = tmpl ->
             issued (createMainGoFile ctx fn main version) (mkState h l)
             = [CreateFile main; Execute tmpl main fn; Close main]).
  { intros version v tmpl Hv Ht.
    eapply issued_state.
    rewrite (createMainGoFile_parsed _ _ _ _ _ _ _ Hv).
    rewrite Ht. reflexivity. }
  repeat split; eapply R; vm_compute; reflexivity.
Qed.

(** ** The legacy vendored path (C4, C8, C9) *)

Section Vendored.

Variable ctx : Context.
Variable fn : fnInfo.
Variable h : list event.
Variable l : Layer.

Lemma createMainVendored_including res :
  FileExists ctx (relocated ctx fn h) [fnFrameworkVendoredPath ctx fn] = true ->
  ExecWithErr ctx (relocated ctx fn h ++ [Logf logIncluding])
    (cmdCopy (fnVendoredPath ctx fn) (appPath ctx))
    [WithUserTimingAttribution] = ExecOk res ->
  createMainVendored ctx fn (mkState h l) =
  createMainGoFile ctx fn (vendoredMain ctx) "v0.0.0"
    (mkState (relocated ctx fn h ++ includingBranch ctx fn)
       (vendoredLayer ctx l)).
Proof.
  unfold relocated. unfold_vendored. intros Hin Hcp. norm_hyps.
  unfold createMainVendored. unfold_monad. norm_history.
  rewrite Hin. norm_history. rewrite Hcp. norm_history. reflexivity.
Qed.

Lemma createMainVendored_including_exit res err :
  FileExists ctx (relocated ctx fn h) [fnFrameworkVendoredPath ctx fn] = true ->
  ExecWithErr ctx (relocated ctx fn h ++ [Logf logIncluding])
    (cmdCopy (fnVendoredPath ctx fn) (appPath ctx))
    [WithUserTimingAttribution] = ExecFail res err ->
  createMainVendored ctx fn (mkState h l) =
  (Exits err,
   mkState (relocated ctx fn h ++ includingBranch ctx fn)
     (vendoredLayer ctx l)).
Proof.
  unfold relocated. unfold_vendored. intros Hin Hcp. norm_hyps.
  unfold createMainVendored. unfold_monad. norm_history.
  rewrite Hin. norm_history. rewrite Hcp. norm_history. reflexivity.
Qed.

Lemma createMainVendored_excluding r1 r2 :
  FileExists ctx (relocated ctx fn h) [fnFrameworkVendoredPath ctx fn]
  = false ->
  ExecWithErr ctx
    (relocated ctx fn h ++ [Logf logExcluding; Warnf warnNoFramework;
                   TempDir "" appName (fetchCache ctx fn h)])
    cmdFetch (fetchOpts ctx (fetchCache ctx fn h)) = ExecOk r1 ->
  ExecWithErr ctx
    (relocated ctx fn h ++ [Logf logExcluding; Warnf warnNoFramework;
                   TempDir "" appName (fetchCache ctx fn h);
                   Exec cmdFetch (fetchOpts ctx (fetchCache ctx fn h))])
    cmdCheckout (checkoutOpts ctx) = ExecOk r2 ->
  createMainVendored ctx fn (mkState h l) =
  defer (ctx_RemoveAll (fetchCache ctx fn h))
    (createMainGoFile ctx fn (vendoredMain ctx) functionsFrameworkVersion)
    (mkState (relocated ctx fn h ++ excludingBranch ctx (fetchCache ctx fn h))
       (vendoredLayer ctx l)).
Proof.
  unfold fetchCache, relocated. unfold_vendored.
  intros Hin Hget Hco. norm_hyps.
  unfold createMainVendored. unfold_monad. norm_history.
  rewrite Hin. norm_history. rewrite Hget. norm_history.
  rewrite Hco. norm_history. reflexivity.
Qed.

Lemma createMainVendored_fetch_exit res err :
  FileExists ctx (relocated ctx fn h) [fnFrameworkVendoredPath ctx fn]
  = false ->
  ExecWithErr ctx
    (relocated ctx fn h ++ [Logf logExcluding; Warnf warnNoFramework;
                   TempDir "" appName (fetchCache ctx fn h)])
    cmdFetch (fetchOpts ctx (fetchCache ctx fn h)) = ExecFail res err ->
  createMainVendored ctx fn (mkState h l) =
  (Exits err,
   mkState (relocated ctx fn h ++ [Logf logExcluding; Warnf warnNoFramework;
                          TempDir "" appName (fetchCache ctx fn h);
                          Exec cmdFetch (fetchOpts ctx (fetchCache ctx fn h));
                          RemoveAll (fetchCache ctx fn h)])
     (vendoredLayer ctx l)).
Proof.
  unfold fetchCache, relocated. unfold_vendored.
  intros Hin Hget. norm_hyps.
  unfold createMainVendored. unfold_monad. norm_history.
  rewrite Hin. norm_history. rewrite Hget. norm_history. reflexivity.
Qed.

Lemma createMainVendored_checkout_exit r1 res err :
  FileExists ctx (relocated ctx fn h) [fnFrameworkVendoredPath ctx fn]
  = false ->
  ExecWithErr ctx
    (relocated ctx fn h ++ [Logf logExcluding; Warnf warnNoFramework;
                   TempDir "" appName (fetchCache ctx fn h)])
    cmdFetch (fetchOpts ctx (fetchCache ctx fn h)) = ExecOk r1 ->
  ExecWithErr ctx
    (relocated ctx fn h ++ [Logf logExcluding; Warnf warnNoFramework;
                   TempDir "" appName (fetchCache ctx fn h);
                   Exec cmdFetch (fetchOpts ctx (fetchCache ctx fn h))])
    cmdCheckout (checkoutOpts ctx) = ExecFail res err ->
  createMainVendored ctx fn (mkState h l) =
  (Exits err,
   mkState (relocated ctx fn h ++ excludingBranch ctx (fetchCache ctx fn h)
              ++ [RemoveAll (fetchCache ctx fn h)])
     (vendoredLayer ctx l)).
Proof.
  unfold fetchCache, relocated. unfold_vendored.
  intros Hin Hget Hco. norm_hyps.
  unfold createMainVendored. unfold_monad. norm_history.
  rewrite Hin. norm_history. rewrite Hget. norm_history.
  rewrite Hco. norm_history. reflexivity.
Qed.

End Vendored.

Lemma ParseTolerant_marker :
  semver.ParseTolerant "v0.0.0" = inl (semver.mkVersion 0 0 0 [] []).
Proof. vm_compute. reflexivity. Qed.

(** The five runs of [createMainVendored]: with a vendored framework the
    copy succeeds or ends the build; without one the fetch ends the build,
    or the checkout does, or both succeed. *)
Lemma createMainVendored_issued (ctx : Context) (fn : fnInfo) h l :
  let d := issued (createMainVendored ctx fn) (mkState h l) in
  let c := fetchCache ctx fn h in
  (FileExists ctx (relocated ctx fn h) [fnFrameworkVendoredPath ctx fn] = true
   /\ (d = relocation ctx fn ++ includingBranch ctx fn
            ++ vendoredFile ctx fn tmplV0
       \/ d = relocation ctx fn ++ includingBranch ctx fn))%list
  \/
  (FileExists ctx (relocated ctx fn h) [fnFrameworkVendoredPath ctx fn] = false
   /\ (d = relocation ctx fn ++ excludingBranch ctx c
            ++ vendoredFile ctx fn tmplV1_1 ++ [RemoveAll c]
       \/ d = relocation ctx fn
              ++ [Logf logExcluding; Warnf warnNoFramework;
                  TempDir "" appName c;
                  Exec cmdFetch (fetchOpts ctx c); RemoveAll c]
       \/ d = relocation ctx fn ++ excludingBranch ctx c
              ++ [RemoveAll c]))%list.
Proof.
  cbv zeta.
  destruct (FileExists ctx (relocated ctx fn h)
              [fnFrameworkVendoredPath ctx fn]) eqn:Hin; [left|right];
    (split; [reflexivity|]).
  - destruct (ExecWithErr ctx (relocated ctx fn h ++ [Logf logIncluding])
                (cmdCopy (fnVendoredPath ctx fn) (appPath ctx))
                [WithUserTimingAttribution]) as [res|res err] eqn:Hcp.
    + left. eapply issued_state.
      rewrite (createMainVendored_including _ _ _ l _ Hin Hcp).
      rewrite (createMainGoFile_parsed _ _ _ _ _ _ _ ParseTolerant_marker).
      unfold relocated, vendoredFile. rewrite <- !app_assoc. reflexivity.
    + right. eapply issued_state.
      rewrite (createMainVendored_including_exit _ _ _ l _ _ Hin Hcp).
      unfold relocated. rewrite <- !app_assoc. reflexivity.
  - destruct (ExecWithErr ctx
                (relocated ctx fn h
                 ++ [Logf logExcluding; Warnf warnNoFramework;
                     TempDir "" appName (fetchCache ctx fn h)])
                cmdFetch (fetchOpts ctx (fetchCache ctx fn h)))
      as [r1|res err] eqn:Hget.
    + destruct (ExecWithErr ctx
                  (relocated ctx fn h
                   ++ [Logf logExcluding; Warnf warnNoFramework;
                       TempDir "" appName (fetchCache ctx fn h);
                       Exec cmdFetch (fetchOpts ctx (fetchCache ctx fn h))])
                  cmdCheckout (checkoutOpts ctx))
        as [r2|res err] eqn:Hco.
      * left. eapply issued_state.
        rewrite (createMainVendored_excluding _ _ _ l _ _ Hin Hget Hco).
        unfold defer.
        rewrite (createMainGoFile_parsed _ _ _ _ _ _ _ ParseTolerant_threshold).
        unfold_monad. unfold relocated, vendoredFile.
        rewrite <- !app_assoc. reflexivity.
      * right; right. eapply issued_state.
        rewrite (createMainVendored_checkout_exit _ _ _ l _ _ _ Hin Hget Hco).
        unfold relocated. rewrite <- !app_assoc. reflexivity.
    + right; left. eapply issued_state.
      rewrite (createMainVendored_fetch_exit _ _ _ l _ _ Hin Hget).
      unfold relocated. rewrite <- !app_assoc. reflexivity.
Qed.

(** C4: [createMainVendored] takes exactly one of two branches.  With a
    vendored copy of the framework package in the relocated tree, the copy
    of the vendor tree into the application directory is the only command
    of the run (no fetch, no checkout), no warning is logged, and when the
    copy succeeds the renderer is called with the version [v0.0.0].
    Without one, a warning is logged and the first command of the run is
    the fetch, the only other one being the checkout; when the fetch
    succeeds the commands are one fetch followed by one checkout of the
    pinned tag, and when the checkout succeeds too the renderer is called
    with the pinned version. *)
Theorem createMainVendored_branches (ctx : Context) (fn : fnInfo)
    (h : list event) (l : Layer) :
  let vendored :=
    FileExists ctx (relocated ctx fn h) [fnFrameworkVendoredPath ctx fn] in
  let cache := fetchCache ctx fn h in
  let run := createMainVendored ctx fn (mkState h l) in
  let effects := issued (createMainVendored ctx fn) (mkState h l) in
  (vendored = true ->
   commands effects = [cmdCopy (fnVendoredPath ctx fn) (appPath ctx)]
   /\ (forall msg, ~ In (Warnf msg) effects)
   /\ forall res,
        ExecWithErr ctx (relocated ctx fn h ++ [Logf logIncluding])
          (cmdCopy (fnVendoredPath ctx fn) (appPath ctx))
          [WithUserTimingAttribution] = ExecOk res ->
        run = createMainGoFile ctx fn (vendoredMain ctx) "v0.0.0"
                (mkState (relocated ctx fn h ++ includingBranch ctx fn)
                   (vendoredLayer ctx l)))
  /\
  (vendored = false ->
   In (Warnf warnNoFramework) effects
   /\ (commands effects = [cmdFetch]
       \/ commands effects = [cmdFetch; cmdCheckout])
   /\ forall r1,
        ExecWithErr ctx
          (relocated ctx fn h
           ++ [Logf logExcluding; Warnf warnNoFramework;
               TempDir "" appName cache])
          cmdFetch (fetchOpts ctx cache) = ExecOk r1 ->
        commands effects = [cmdFetch; cmdCheckout]
        /\ forall r2,
             ExecWithErr ctx
               (relocated ctx fn h
                ++ [Logf logExcluding; Warnf warnNoFramework;
                    TempDir "" appName cache;
                    Exec cmdFetch (fetchOpts ctx cache)])
               cmdCheckout (checkoutOpts ctx) = ExecOk r2 ->
             run = defer (ctx_RemoveAll cache)
                     (createMainGoFile ctx fn (vendoredMain ctx)
                        functionsFrameworkVersion)
                     (mkState
                        (relocated ctx fn h ++ excludingBranch ctx cache)
                        (vendoredLayer ctx l))).
Proof.
  cbv zeta. split.
  - intros Hin.
    destruct (createMainVendored_issued ctx fn h l) as [[_ E]|[F _]];
      [|congruence].
    split; [|split].
    + destruct E as [E|E]; rewrite E; reflexivity.
    + intros msg H.
      destruct E as [E|E]; rewrite E in H;
        unfold relocation, includingBranch, copyVendor, vendoredFile in H;
        cbn [app In] in H;
        repeat (destruct H as [H|H]; [discriminate|]); exact H.
    + intros res Hcp. exact (createMainVendored_including _ _ _ l _ Hin Hcp).
  - intros Hin.
    destruct (createMainVendored_issued ctx fn h l) as [[F _]|[_ E]];
      [congruence|].
    split; [|split].
    + destruct E as [E|[E|E]]; rewrite E;
        unfold relocation, excludingBranch; cbn [app In]; auto 10.
    + destruct E as [E|[E|E]]; rewrite E; [right|left|right]; reflexivity.
    + intros r1 Hget. split.
      * destruct (ExecWithErr ctx
                    (relocated ctx fn h
                     ++ [Logf logExcluding; Warnf warnNoFramework;
                         TempDir "" appName (fetchCache ctx fn h);
                         Exec cmdFetch
                           (fetchOpts ctx (fetchCache ctx fn h))])
                    cmdCheckout (checkoutOpts ctx))
          as [r2|res err] eqn:Hco.
        -- erewrite issued_state.
           2:{ rewrite (createMainVendored_excluding _ _ _ l _ _
                          Hin Hget Hco).
               unfold defer.
               rewrite (createMainGoFile_parsed _ _ _ _ _ _ _
                          ParseTolerant_threshold).
               unfold_monad. unfold relocated.
               rewrite <- !app_assoc. reflexivity. }
           reflexivity.
        -- erewrite issued_state.
           2:{ rewrite (createMainVendored_checkout_exit _ _ _ l _ _ _
                          Hin Hget Hco).
               unfold relocated. rewrite <- !app_assoc. reflexivity. }
           reflexivity.
      * intros r2 Hco.
        exact (createMainVendored_excluding _ _ _ l _ _ Hin Hget Hco).
Qed.

(** C4, on the concrete build: with the framework vendored the only
    command is the copy, without it the fetch and then the checkout. *)
Lemma createMainVendored_branches_witness :
  commands
    (issued (createMainVendored
               (demoContext false None true true false "" unknownDependency)
               demoFn) start)
  = [["cp"; "-r"; "/workspace/src/fn/vendor";
      "/workspace/src/serverless_function_app/main"]]
  /\
  commands
    (issued (createMainVendored
               (demoContext false None true false false "" unknownDependency)
               demoFn) start)
  = [cmdFetch; cmdCheckout].
Proof.
  split.
  - destruct (createMainVendored_branches
                (demoContext false None true true false "" unknownDependency)
                demoFn [] emptyLayer) as [A _].
    destruct (A eq_refl) as (C & _).
    exact C.
  - destruct (createMainVendored_branches
                (demoContext false None true false false "" unknownDependency)
                demoFn [] emptyLayer) as [_ B].
    destruct (B eq_refl) as (_ & _ & C).
    exact (proj1 (C (mkExecResult "" "") eq_refl)).
Defined.

(** C9: whenever the vendored path finds a vendored copy of the framework,
    the only template it ever renders is V0, and it does render it when
    the copy of the vendor tree succeeds: the marker [v0.0.0] it hands to
    the renderer parses to a version below the threshold 1.1.0. *)
Theorem vendored_framework_renders_V0 (ctx : Context) (fn : fnInfo)
    (h : list event) (l : Layer) :
  FileExists ctx (relocated ctx fn h) [fnFrameworkVendoredPath ctx fn] = true ->
  let effects := issued (createMainVendored ctx fn) (mkState h l) in
  (forall tmpl path data, In (Execute tmpl path data) effects -> tmpl = tmplV0)
  /\ (forall res,
        ExecWithErr ctx (relocated ctx fn h ++ [Logf logIncluding])
          (cmdCopy (fnVendoredPath ctx fn) (appPath ctx))
          [WithUserTimingAttribution] = ExecOk res ->
        rendered effects = [tmplV0])
  /\ (exists v, semver.ParseTolerant "v0.0.0" = inl v
                /\ semver.GE v v1_1_0 = false
                /\ selectTemplate v v1_1_0 = tmplV0).
Proof.
  intros Hin. cbv zeta. split; [|split].
  - intros tmpl path data H.
    destruct (createMainVendored_issued ctx fn h l) as [[_ E]|[F _]];
      [|congruence].
    destruct E as [E|E]; rewrite E in H;
      unfold relocation, includingBranch, copyVendor, vendoredFile in H;
      cbn [app In] in H;
      repeat (destruct H as [H|H]; [try discriminate|]);
      try contradiction.
    inversion H. reflexivity.
  - intros res Hcp.
    assert (E : issued (createMainVendored ctx fn) (mkState h l)
                = (relocation ctx fn ++ includingBranch ctx fn
                   ++ vendoredFile ctx fn tmplV0)%list).
    { eapply issued_state.
      rewrite (createMainVendored_including _ _ _ l _ Hin Hcp).
      rewrite (createMainGoFile_parsed _ _ _ _ _ _ _ ParseTolerant_marker).
      unfold relocated, vendoredFile. rewrite <- !app_assoc. reflexivity. }
    rewrite E. reflexivity.
  - eexists. split; [exact ParseTolerant_marker|]. split; reflexivity.
Qed.

(** C9, on the concrete build with the framework vendored. *)
Lemma vendored_framework_renders_V0_witness :
  rendered
    (issued (createMainVendored
               (demoContext false None true true false "" unknownDependency)
               demoFn) start)
  = [tmplV0].
Proof.
  destruct (vendored_framework_renders_V0
              (demoContext false None true true false "" unknownDependency)
              demoFn [] emptyLayer eq_refl) as (_ & B & _).
  exact (B (mkExecResult "" "") eq_refl).
Defined.

(** ** Temporary directories (C8) *)

(** The extraction issues the same three effects whether the helper
    succeeds or ends the build. *)
Lemma extractPackageNameInDir_issued (ctx : Context) (source : string) h l :
  let scriptDir := Join ctx [BuildpackRoot ctx; "converter"; "get_package"] in
  let cacheDir := MkTemp ctx h "" appName in
  issued (extractPackageNameInDir ctx source) (mkState h l)
  = [TempDir "" appName cacheDir;
     Exec ["go"; "run"; "main"; "-dir"; source]
       [WithEnv ["GOPATH=" ++ scriptDir; "GOCACHE=" ++ cacheDir];
        WithWorkDir scriptDir; WithUserAttribution];
     RemoveAll cacheDir].
Proof.
  cbv zeta. unfold issued, extractPackageNameInDir. unfold_monad.
  destruct (ExecWithErr ctx (h ++ [TempDir "" appName (MkTemp ctx h "" appName)])
              ["go"; "run"; "main"; "-dir"; source] _);
    norm_history; apply skipn_length_app.
Qed.

Lemma remove_only (c : string) : remove string_dec c [c] = [].
Proof. simpl. destruct (string_dec c c); congruence. Qed.

Lemma liveTempDirs_app h1 h2 live :
  liveTempDirs (h1 ++ h2) live = liveTempDirs h2 (liveTempDirs h1 live).
Proof.
  revert live. induction h1 as [|e h1 IH]; intros live; [reflexivity|].
  destruct e; cbn [app liveTempDirs]; apply IH.
Qed.

Lemma tidy_bind (A B : Type) (m : M A) (k : A -> M B) :
  tidy m -> (forall a, tidy (k a)) -> tidy (bind m k).
Proof.
  intros Hm Hk h l. unfold bind.
  destruct (Hm h l) as (d & E & T).
  destruct (m (mkState h l)) as [[a|e] [h' l']]; cbn [snd history] in E;
    subst h'.
  - destruct (Hk a (h ++ d)%list l') as (d' & E' & T').
    exists (d ++ d')%list. rewrite E', app_assoc. split; [reflexivity|].
    rewrite liveTempDirs_app, T. exact T'.
  - exists d. split; [reflexivity|exact T].
Qed.

Lemma tidy_ret (A : Type) (a : A) : tidy (ret a).
Proof.
  intros h l. exists []. rewrite app_nil_r. split; reflexivity.
Qed.

Lemma tidy_ask (A : Type) (q : list event -> A) : tidy (ask q).
Proof.
  intros h l. exists []. rewrite app_nil_r. split; reflexivity.
Qed.

Lemma tidy_emit (e : event) : liveTempDirs [e] [] = [] -> tidy (emit e).
Proof.
  intros T h l. exists [e]. split; [reflexivity|exact T].
Qed.

Lemma tidy_Exec ctx cmd opts : tidy (ctx_Exec ctx cmd opts).
Proof.
  intros h l. exists [Exec cmd opts]. unfold ctx_Exec. run_all.
  all: split; reflexivity.
Qed.

Lemma extractPackageNameInDir_tidy ctx source :
  tidy (extractPackageNameInDir ctx source).
Proof.
  intros h l. unfold extractPackageNameInDir. run_all.
  all: eexists; (split; [norm_history; reflexivity|]);
    cbn [liveTempDirs]; apply remove_only.
Qed.

Lemma createMainGoMod_tidy ctx fn : tidy (createMainGoMod ctx fn).
Proof.
  intros h l.
  unfold createMainGoMod, frameworkSpecifiedVersion, createMainGoFile.
  run_all.
  all: eexists; (split; [norm_history; reflexivity|reflexivity]).
Qed.

Lemma createMainVendored_tidy ctx fn : tidy (createMainVendored ctx fn).
Proof.
  intros h l. unfold createMainVendored, createMainGoFile. run_all.
  all: eexists; (split; [norm_history; reflexivity|]);
    cbn [liveTempDirs]; try apply remove_only; reflexivity.
Qed.

Lemma buildFn_finish_tidy ctx (m : M (option error)) :
  tidy m -> tidy (buildFn_finish ctx m).
Proof.
  intros Hm. unfold buildFn_finish. apply tidy_bind; [exact Hm|].
  intros [e|]; [apply tidy_ret|].
  apply tidy_bind; [apply tidy_emit; reflexivity|].
  intros _. apply tidy_ret.
Qed.

Lemma buildFn_tidy ctx : tidy (buildFn ctx).
Proof.
  unfold buildFn. apply tidy_bind.
  - unfold buildFn_relocate, ctx_RemoveAll, ctx_MkdirAll.
    repeat (apply tidy_bind; [apply tidy_emit; reflexivity|intros _]).
    apply tidy_bind; [apply tidy_Exec|intros _].
    apply tidy_bind; [apply extractPackageNameInDir_tidy|intros package].
    apply tidy_ret.
  - intros fn. unfold buildFn_strategy, ctx_FileExists.
    apply tidy_bind; [apply tidy_ask|intros present].
    destruct present; cbn [negb].
    + apply tidy_bind; [apply tidy_ask|intros info].
      destruct (match info with
                | Some mode => ownerWriteClear mode
                | None => false
                end);
        [apply tidy_ret|apply buildFn_finish_tidy, createMainGoMod_tidy].
    + apply tidy_bind; [apply tidy_ask|intros supported].
      destruct supported; cbn [negb];
        [apply buildFn_finish_tidy, createMainVendored_tidy|apply tidy_ret].
Qed.

(** C8: the extraction cache of [extractPackageNameInDir] and the fetch
    cache of [createMainVendored] are removed on every exit path of the
    step that creates them.  Whatever the collaborators answer, hence
    whether the step returns or ends the build, no temporary directory the
    step created is live among its effects, and the removal of the
    directory is the step's last effect.  The extraction always creates its
    cache; the vendored path creates one when no framework is vendored.
    Hence no temporary directory created during [buildFn] is left when it
    ends. *)
Theorem temp_dirs_removed (ctx : Context) (h : list event) (l : Layer) :
  (forall source,
     let effects := issued (extractPackageNameInDir ctx source) (mkState h l) in
     removesItsTempDirs effects
     /\ In (TempDir "" appName (MkTemp ctx h "" appName)) effects)
  /\
  (forall fn,
     let effects := issued (createMainVendored ctx fn) (mkState h l) in
     removesItsTempDirs effects
     /\ (FileExists ctx (relocated ctx fn h) [fnFrameworkVendoredPath ctx fn]
         = false ->
         In (TempDir "" appName (fetchCache ctx fn h)) effects))
  /\
  liveTempDirs (issued (buildFn ctx) (mkState h l)) [] = [].
Proof.
  split; [|split].
  3:{ destruct (buildFn_tidy ctx h l) as (d & E & T).
      unfold issued. rewrite E. cbn [history].
      rewrite skipn_length_app. exact T. }
  - intros source. cbv zeta. rewrite extractPackageNameInDir_issued.
    cbv zeta. split; [split|].
    + cbn [liveTempDirs]. apply remove_only.
    + intros dir pattern name H. cbn [In] in H.
      destruct H as [H|[H|[H|[]]]]; try discriminate.
      inversion H; subst. exists []. eexists [_]. reflexivity.
    + cbn [In]. auto.
  - intros fn. cbv zeta.
    destruct (createMainVendored_issued ctx fn h l)
      as [[Hin [E|E]]|[Hin [E|[E|E]]]]; rewrite E; clear E;
      unfold relocation, includingBranch, excludingBranch, copyVendor,
        vendoredFile;
      cbn [app]; (split; [split|]).
    + reflexivity.
    + intros dir pattern name H. cbn [In] in H.
      repeat (destruct H as [H|H]; [discriminate|]). contradiction.
    + congruence.
    + reflexivity.
    + intros dir pattern name H. cbn [In] in H.
      repeat (destruct H as [H|H]; [discriminate|]). contradiction.
    + congruence.
    + cbn [liveTempDirs]. apply remove_only.
    + intros dir pattern name H. cbn [In] in H.
      repeat (destruct H as [H|H]; [try discriminate|]); try contradiction.
      inversion H; subst. eexists [_; _; _; _; _]. eexists [_; _; _; _; _].
      reflexivity.
    + intros _. cbn [In]. auto 10.
    + cbn [liveTempDirs]. apply remove_only.
    + intros dir pattern name H. cbn [In] in H.
      repeat (destruct H as [H|H]; [try discriminate|]); try contradiction.
      inversion H; subst. eexists [_; _; _; _; _]. eexists [_].
      reflexivity.
    + intros _. cbn [In]. auto 10.
    + cbn [liveTempDirs]. apply remove_only.
    + intros dir pattern name H. cbn [In] in H.
      repeat (destruct H as [H|H]; [try discriminate|]); try contradiction.
      inversion H; subst. eexists [_; _; _; _; _]. eexists [_; _].
      reflexivity.
    + intros _. cbn [In]. auto 10.
Qed.

(** ** The framework version declared by the function (C5) *)

(** C5: [frameworkSpecifiedVersion] returns the trimmed output of the
    introspection command when it succeeds; the empty version and no error
    when it fails with a result whose error output contains
    [not a known dependency]; and the command's error, with the empty
    version, for every other failure (no result, or an error output without
    the pattern). *)
Theorem frameworkSpecifiedVersion_cases (ctx : Context) (fnSource : string)
    (s : State) :
  let answer :=
    ExecWithErr ctx (history s) cmdListFramework [WithWorkDir fnSource] in
  let result := fst (frameworkSpecifiedVersion ctx fnSource s) in
  (forall res,
     answer = ExecOk res ->
     result = Returns (strings.TrimSpace (Stdout res), None))
  /\ (forall res err,
        answer = ExecFail (Some res) err ->
        strings.Contains (Stderr res) "not a known dependency" = true ->
        result = Returns ("", None))
  /\ (forall res err,
        answer = ExecFail res err ->
        (forall r, res = Some r ->
           strings.Contains (Stderr r) "not a known dependency" = false) ->
        result = Returns ("", Some err)).
Proof.
  cbv zeta. unfold cmdListFramework, frameworkSpecifiedVersion.
  unfold_monad. repeat split.
  - intros res H. rewrite H. reflexivity.
  - intros res err H P. rewrite H, P. reflexivity.
  - intros res err H P. rewrite H. destruct res as [r|].
    + rewrite (P r eq_refl). reflexivity.
    + reflexivity.
Qed.

(** C5, on three concrete lookups: a declared version with blanks around
    it, an unknown dependency, and a failure of another kind. *)
Lemma frameworkSpecifiedVersion_cases_witness :
  fst (frameworkSpecifiedVersion
         (demoContext true None false false false ""
            (ExecOk (mkExecResult " v1.2.0 " "")))
         "/src" start)
  = Returns ("v1.2.0", None)
  /\ fst (frameworkSpecifiedVersion
            (demoContext true None false false false "" unknownDependency)
            "/src" start)
     = Returns ("", None)
  /\ fst (frameworkSpecifiedVersion
            (demoContext true None false false false ""
               (ExecFail (Some (mkExecResult "" "go: cannot find main module"))
                  (ToolError "exit status 1")))
            "/src" start)
     = Returns ("", Some (ToolError "exit status 1")).
Proof.
  split; [|split].
  - exact (proj1 (frameworkSpecifiedVersion_cases
                    (demoContext true None false false false ""
                       (ExecOk (mkExecResult " v1.2.0 " "")))
                    "/src" start) _ eq_refl).
  - exact (proj1 (proj2 (frameworkSpecifiedVersion_cases
                    (demoContext true None false false false ""
                       unknownDependency)
                    "/src" start)) _ _ eq_refl eq_refl).
  - refine (proj2 (proj2 (frameworkSpecifiedVersion_cases
                    (demoContext true None false false false ""
                       (ExecFail
                          (Some (mkExecResult "" "go: cannot find main module"))
                          (ToolError "exit status 1")))
                    "/src" start)) _ _ eq_refl _).
    intros r E. inversion E. reflexivity.
Defined.

(** ** The module path (C2, C6, C7) *)

Lemma Split_nonempty (s : string) :
  (0 <? List.length (strings.Split s "/"))%nat = true.
Proof. rewrite Split_first. reflexivity. Qed.

(** C2, counterexample: at the module path [foo/bar] the wiring fails with
    the user error, but only after [go mod init] ran, which writes the
    go.mod of the application root. *)
Lemma createMainGoMod_rejects_after_init : ~ spec_rejects_before_any_write.
Proof.
  unfold spec_rejects_before_any_write. vm_compute.
  intros [_ H]. discriminate.
Qed.

(** C2, as amended: for every module path whose first slash-separated
    segment contains no dot, [createMainGoMod] returns the user error that
    names the expected format and the offending path.  It does so once
    [go mod init] ran at the application root and the module path was
    queried, and before every other effect: there is no dependency edit, no
    framework lookup or fetch, and no entry point is created.  Of the two
    effects issued, [go mod init] is the one that writes a file. *)
Theorem createMainGoMod_rejects_dotless (ctx : Context) (fn : fnInfo)
    (h : list event) (l : Layer) (r0 r1 : ExecResult) :
  ExecWithErr ctx h cmdModInit [] = ExecOk r0 ->
  ExecWithErr ctx (h ++ [Exec cmdModInit []]) cmdListModule
    [WithWorkDir (Source fn)] = ExecOk r1 ->
  strings.Contains (firstSegment (Stdout r1)) "." = false ->
  createMainGoMod ctx fn (mkState h l)
  = (Returns (Some (errModulePath (Stdout r1))),
     mkState (h ++ identityQuery fn) l)
  /\ filter writesFiles (identityQuery fn) = [Exec cmdModInit []]
  /\ (forall path, ~ In (CreateFile path) (identityQuery fn)).
Proof.
  intros Hinit Hlist Hdot. split; [|split].
  - unfold_module. unfold createMainGoMod. unfold_monad.
    rewrite Hinit. norm_history. rewrite Hlist. norm_history.
    rewrite Split_nonempty.
    change (hd "" (strings.Split (Stdout r1) "/"))
      with (firstSegment (Stdout r1)).
    rewrite Hdot. reflexivity.
  - reflexivity.
  - intros path [H|[H|[]]]; discriminate.
Qed.

(** C2, on the concrete build whose module path is [foo/bar]. *)
Lemma createMainGoMod_rejects_dotless_witness :
  fst (createMainGoMod
         (demoContext true (Some 420%Z) false false false "foo/bar"
            unknownDependency)
         demoFn start)
  = Returns (Some (errModulePath "foo/bar")).
Proof.
  exact (f_equal fst
           (proj1 (createMainGoMod_rejects_dotless
                     (demoContext true (Some 420%Z) false false false
                        "foo/bar" unknownDependency)
                     demoFn [] emptyLayer
                     (mkExecResult "" "") (mkExecResult "foo/bar" "")
                     eq_refl eq_refl eq_refl))).
Defined.

Lemma issued_snd (A : Type) (m : M A) h l d l' :
  snd (m (mkState h l)) = mkState (h ++ d) l' ->
  issued m (mkState h l) = d.
Proof.
  intros E. unfold issued. rewrite E. apply skipn_length_app.
Qed.

(** The lookup always returns, after its command and at most one log line. *)
Lemma frameworkSpecifiedVersion_run (ctx : Context) (src : string) h l :
  exists r d,
    frameworkSpecifiedVersion ctx src (mkState h l)
    = (Returns r,
       mkState (h ++ Exec cmdListFramework [WithWorkDir src] :: d) l)
    /\ (d = [] \/ exists msg, d = [Logf msg]).
Proof.
  unfold frameworkSpecifiedVersion, cmdListFramework. unfold_monad.
  destruct (ExecWithErr ctx h _ _) as [res|[r|] err].
  - norm_history. do 2 eexists. split; [reflexivity|]. right. eauto.
  - destruct (strings.Contains (Stderr r) "not a known dependency");
      norm_history; do 2 eexists; (split; [reflexivity|]); eauto.
  - norm_history. do 2 eexists. split; [reflexivity|]. auto.
Qed.

(** The wiring up to the framework lookup, when its four commands succeed
    and the module path is accepted. *)
Lemma createMainGoMod_wired (ctx : Context) (fn : fnInfo) h l r0 r1 r2 r3 :
  let fnMod := Stdout r1 in
  ExecWithErr ctx h cmdModInit [] = ExecOk r0 ->
  ExecWithErr ctx (h ++ [Exec cmdModInit []]) cmdListModule
    [WithWorkDir (Source fn)] = ExecOk r1 ->
  strings.Contains (firstSegment fnMod) "." = true ->
  ExecWithErr ctx (h ++ identityQuery fn) (cmdRequire fnMod) [] = ExecOk r2 ->
  ExecWithErr ctx (h ++ identityQuery fn ++ [Exec (cmdRequire fnMod) []])
    (cmdReplace fnMod (Source fn)) [] = ExecOk r3 ->
  createMainGoMod ctx fn (mkState h l)
  = resolveAndRender ctx
      (mkFnInfo (Source fn) (Target fn)
         (if FileExists ctx (h ++ identityQuery fn)
               [ApplicationRoot ctx; Package fn]
          then fnMod ++ "/" ++ Package fn else fnMod))
      (mkState (h ++ identityQuery fn ++ dependencyEdits fn fnMod) l).
Proof.
  cbv zeta. intros Hinit Hlist Hdot Hreq Hrep.
  unfold resolveAndRender. unfold_module. norm_hyps.
  unfold createMainGoMod. unfold_monad.
  rewrite Hinit. norm_history. rewrite Hlist. norm_history.
  rewrite Split_nonempty.
  change (hd "" (strings.Split (Stdout r1) "/"))
    with (firstSegment (Stdout r1)).
  rewrite Hdot. cbn [negb andb]. norm_history.
  rewrite Hreq. norm_history. rewrite Hrep. norm_history.
  reflexivity.
Qed.

(** C7: in the module path, once the wiring succeeded, the result of the
    framework lookup decides.  When the version is unspecified (empty), the
    framework is added with [go get] at the pinned version, and the
    renderer is then called with the pinned version; the add is the last
    command of the run.  When a version is declared, the renderer is called
    with that version and the run has no [go get]. *)
Theorem createMainGoMod_framework_version (ctx : Context) (fn : fnInfo)
    (h : list event) (l : Layer) (r0 r1 r2 r3 : ExecResult) :
  let fnMod := Stdout r1 in
  let wired := (h ++ identityQuery fn ++ dependencyEdits fn fnMod)%list in
  let fn' :=
    mkFnInfo (Source fn) (Target fn)
      (if FileExists ctx (h ++ identityQuery fn)
            [ApplicationRoot ctx; Package fn]
       then fnMod ++ "/" ++ Package fn else fnMod) in
  let wiring :=
    [cmdModInit; cmdListModule; cmdRequire fnMod;
     cmdReplace fnMod (Source fn); cmdListFramework] in
  ExecWithErr ctx h cmdModInit [] = ExecOk r0 ->
  ExecWithErr ctx (h ++ [Exec cmdModInit []]) cmdListModule
    [WithWorkDir (Source fn)] = ExecOk r1 ->
  strings.Contains (firstSegment fnMod) "." = true ->
  ExecWithErr ctx (h ++ identityQuery fn) (cmdRequire fnMod) [] = ExecOk r2 ->
  ExecWithErr ctx (h ++ identityQuery fn ++ [Exec (cmdRequire fnMod) []])
    (cmdReplace fnMod (Source fn)) [] = ExecOk r3 ->
  forall version s',
    frameworkSpecifiedVersion ctx (Source fn) (mkState wired l)
    = (Returns (version, None), s') ->
    (version = "" ->
     forall r4,
       ExecWithErr ctx (history s') cmdGetFramework [WithUserAttribution]
       = ExecOk r4 ->
       createMainGoMod ctx fn (mkState h l)
       = createMainGoFile ctx fn' (rootMain ctx) functionsFrameworkVersion
           (mkState
              (history s' ++ [Exec cmdGetFramework [WithUserAttribution]])
              (layer s'))
       /\ commands (issued (createMainGoMod ctx fn) (mkState h l))
          = (wiring ++ [cmdGetFramework])%list)
    /\
    (version <> "" ->
     createMainGoMod ctx fn (mkState h l)
     = createMainGoFile ctx fn' (rootMain ctx) version s'
     /\ commands (issued (createMainGoMod ctx fn) (mkState h l)) = wiring).
Proof.
  cbv zeta. intros Hinit Hlist Hdot Hreq Hrep version s' Hfw.
  rewrite (createMainGoMod_wired ctx fn h l r0 r1 r2 r3
             Hinit Hlist Hdot Hreq Hrep).
  destruct (frameworkSpecifiedVersion_run ctx (Source fn)
              (h ++ identityQuery fn ++ dependencyEdits fn (Stdout r1)) l)
    as (r & d0 & E & Hd0).
  rewrite E in Hfw. injection Hfw as Hr Hs. subst r s'.
  assert (C0 : commands d0 = []).
  { destruct Hd0 as [->|[msg ->]]; reflexivity. }
  cbn [history layer].
  split.
  - intros -> r4 Hget.
    assert (R : resolveAndRender ctx
                  (mkFnInfo (Source fn) (Target fn)
                     (if FileExists ctx (h ++ identityQuery fn)
                           [ApplicationRoot ctx; Package fn]
                      then Stdout r1 ++ "/" ++ Package fn else Stdout r1))
                  (mkState
                     (h ++ identityQuery fn ++ dependencyEdits fn (Stdout r1))
                     l)
                = createMainGoFile ctx
                    (mkFnInfo (Source fn) (Target fn)
                       (if FileExists ctx (h ++ identityQuery fn)
                             [ApplicationRoot ctx; Package fn]
                        then Stdout r1 ++ "/" ++ Package fn else Stdout r1))
                    (rootMain ctx) functionsFrameworkVersion
                    (mkState
                       (((h ++ identityQuery fn
                           ++ dependencyEdits fn (Stdout r1))
                          ++ Exec cmdListFramework [WithWorkDir (Source fn)]
                             :: d0)
                         ++ [Exec cmdGetFramework [WithUserAttribution]])
                       l)).
    { unfold resolveAndRender. unfold bind at 1. cbn [Source].
      rewrite E. cbn [String.eqb]. unfold_monad.
      unfold identityQuery, dependencyEdits in *. norm_hyps. norm_history.
      rewrite Hget. reflexivity. }
    rewrite R. split; [reflexivity|].
    destruct (createMainGoFile_effects ctx
                (mkFnInfo (Source fn) (Target fn)
                   (if FileExists ctx (h ++ identityQuery fn)
                         [ApplicationRoot ctx; Package fn]
                    then Stdout r1 ++ "/" ++ Package fn else Stdout r1))
                (rootMain ctx) functionsFrameworkVersion
                (((h ++ identityQuery fn ++ dependencyEdits fn (Stdout r1))
                   ++ Exec cmdListFramework [WithWorkDir (Source fn)] :: d0)
                  ++ [Exec cmdGetFramework [WithUserAttribution]]) l)
      as (d & Es & Cd & _).
    erewrite issued_snd.
    2:{ rewrite (createMainGoMod_wired ctx fn h l r0 r1 r2 r3
                   Hinit Hlist Hdot Hreq Hrep), R, Es.
        rewrite <- !app_assoc. reflexivity. }
    rewrite !commands_app. cbn [commands app identityQuery dependencyEdits].
    rewrite C0, Cd. reflexivity.
  - intros Hv.
    assert (R : resolveAndRender ctx
                  (mkFnInfo (Source fn) (Target fn)
                     (if FileExists ctx (h ++ identityQuery fn)
                           [ApplicationRoot ctx; Package fn]
                      then Stdout r1 ++ "/" ++ Package fn else Stdout r1))
                  (mkState
                     (h ++ identityQuery fn ++ dependencyEdits fn (Stdout r1))
                     l)
                = createMainGoFile ctx
                    (mkFnInfo (Source fn) (Target fn)
                       (if FileExists ctx (h ++ identityQuery fn)
                             [ApplicationRoot ctx; Package fn]
                        then Stdout r1 ++ "/" ++ Package fn else Stdout r1))
                    (rootMain ctx) version
                    (mkState
                       ((h ++ identityQuery fn
                          ++ dependencyEdits fn (Stdout r1))
                         ++ Exec cmdListFramework [WithWorkDir (Source fn)]
                            :: d0)
                       l)).
    { unfold resolveAndRender. unfold bind at 1. cbn [Source].
      rewrite E. apply String.eqb_neq in Hv. rewrite Hv. reflexivity. }
    rewrite R. split; [reflexivity|].
    destruct (createMainGoFile_effects ctx
                (mkFnInfo (Source fn) (Target fn)
                   (if FileExists ctx (h ++ identityQuery fn)
                         [ApplicationRoot ctx; Package fn]
                    then Stdout r1 ++ "/" ++ Package fn else Stdout r1))
                (rootMain ctx) version
                ((h ++ identityQuery fn ++ dependencyEdits fn (Stdout r1))
                  ++ Exec cmdListFramework [WithWorkDir (Source fn)] :: d0) l)
      as (d & Es & Cd & _).
    erewrite issued_snd.
    2:{ rewrite (createMainGoMod_wired ctx fn h l r0 r1 r2 r3
                   Hinit Hlist Hdot Hreq Hrep), R, Es.
        rewrite <- !app_assoc. reflexivity. }
    rewrite !commands_app. cbn [commands app identityQuery dependencyEdits].
    rewrite C0, Cd. reflexivity.
Qed.

(** C7, on two concrete builds: the framework unknown to the function's
    module, and declared at [v1.0.0]. *)
Lemma createMainGoMod_framework_version_witness :
  commands
    (issued (createMainGoMod
               (demoContext true (Some 420%Z) false false false
                  "example.com/fn" unknownDependency)
               demoFn) start)
  = [cmdModInit; cmdListModule; cmdRequire "example.com/fn";
     cmdReplace "example.com/fn" (Source demoFn); cmdListFramework;
     cmdGetFramework]
  /\
  commands
    (issued (createMainGoMod
               (demoContext true (Some 420%Z) false false false
                  "example.com/fn" (ExecOk (mkExecResult "v1.0.0" "")))
               demoFn) start)
  = [cmdModInit; cmdListModule; cmdRequire "example.com/fn";
     cmdReplace "example.com/fn" (Source demoFn); cmdListFramework].
Proof.
  split.
  - refine (proj2 (proj1 (createMainGoMod_framework_version
                     (demoContext true (Some 420%Z) false false false
                        "example.com/fn" unknownDependency)
                     demoFn [] emptyLayer
                     (mkExecResult "" "") (mkExecResult "example.com/fn" "")
                     (mkExecResult "" "") (mkExecResult "" "")
                     eq_refl eq_refl eq_refl eq_refl eq_refl
                     "" _ eq_refl)
                   eq_refl (mkExecResult "" "") eq_refl)).
  - refine (proj2 (proj2 (createMainGoMod_framework_version
                     (demoContext true (Some 420%Z) false false false
                        "example.com/fn" (ExecOk (mkExecResult "v1.0.0" "")))
                     demoFn [] emptyLayer
                     (mkExecResult "" "") (mkExecResult "example.com/fn" "")
                     (mkExecResult "" "") (mkExecResult "" "")
                     eq_refl eq_refl eq_refl eq_refl eq_refl
                     "v1.0.0" _ eq_refl)
                   _)).
    discriminate.
Defined.

(** The end of the module path appends to the history, and whatever it
    renders goes to the entry point of the application root with the
    record it was given. *)
Lemma resolveAndRender_effects (ctx : Context) (fn : fnInfo) h l :
  exists d,
    snd (resolveAndRender ctx fn (mkState h l)) = mkState (h ++ d) l
    /\ forall tmpl path data,
         In (Execute tmpl path data) d -> path = rootMain ctx /\ data = fn.
Proof.
  unfold resolveAndRender. unfold bind at 1.
  destruct (frameworkSpecifiedVersion_run ctx (Source fn) h l)
    as ([version [err|]] & d0 & E & Hd0); rewrite E.
  - unfold_monad. eexists. split; [reflexivity|].
    intros tmpl path data [H|H]; [discriminate|].
    destruct Hd0 as [->|[msg ->]]; [contradiction|].
    destruct H as [H|[]]; discriminate.
  - unfold bind at 1. destruct (String.eqb version "").
    + unfold_monad.
      destruct (ExecWithErr ctx _ cmdGetFramework [WithUserAttribution])
        as [r4|res err].
      * destruct (createMainGoFile_effects ctx fn (rootMain ctx)
                    functionsFrameworkVersion
                    ((h ++ Exec cmdListFramework [WithWorkDir (Source fn)]
                        :: d0)
                      ++ [Exec cmdGetFramework [WithUserAttribution]]) l)
          as (d & Es & _ & _ & Hx).
        rewrite Es. eexists. rewrite <- !app_assoc.
        split; [reflexivity|].
        intros tmpl path data H. cbn [app In] in H.
        destruct H as [H|H]; [discriminate|].
        apply in_app_or in H. destruct H as [H|H].
        { destruct Hd0 as [->|[msg ->]]; [contradiction|].
          destruct H as [H|[]]; discriminate. }
        cbn [app In] in H. destruct H as [H|H]; [discriminate|].
        destruct (Hx _ _ _ H) as (v & _ & _ & -> & ->). auto.
      * cbn [snd]. eexists. rewrite <- !app_assoc.
        split; [reflexivity|].
        intros tmpl path data H. cbn [app In] in H.
        destruct H as [H|H]; [discriminate|].
        apply in_app_or in H. destruct H as [H|H].
        { destruct Hd0 as [->|[msg ->]]; [contradiction|].
          destruct H as [H|[]]; discriminate. }
        destruct H as [H|[]]; discriminate.
    + unfold ret at 1.
      destruct (createMainGoFile_effects ctx fn (rootMain ctx) version
                  (h ++ Exec cmdListFramework [WithWorkDir (Source fn)] :: d0)
                  l)
        as (d & Es & _ & _ & Hx).
      rewrite Es. eexists. rewrite <- !app_assoc.
      split; [reflexivity|].
      intros tmpl path data H. cbn [app In] in H.
      destruct H as [H|H]; [discriminate|].
      apply in_app_or in H. destruct H as [H|H].
      { destruct Hd0 as [->|[msg ->]]; [contradiction|].
        destruct H as [H|[]]; discriminate. }
      destruct (Hx _ _ _ H) as (v & _ & _ & -> & ->). auto.
Qed.

(** C6: in [createMainGoMod] the package import path handed to the
    templates is the module path followed by a slash and the extracted
    package name when a directory of that name exists at the application
    root, and the module path alone otherwise.  Every rendering the
    function ever issues (to the entry point of the application root)
    carries that import path, the module path being the output of the
    identity query. *)
Theorem createMainGoMod_import_path (ctx : Context) (fn : fnInfo)
    (h : list event) (l : Layer) (tmpl : Template) (path : string)
    (data : fnInfo) :
  In (Execute tmpl path data)
     (issued (createMainGoMod ctx fn) (mkState h l)) ->
  exists r1,
    ExecWithErr ctx (h ++ [Exec cmdModInit []]) cmdListModule
      [WithWorkDir (Source fn)] = ExecOk r1
    /\ Package data
       = (if FileExists ctx (h ++ identityQuery fn)
               [ApplicationRoot ctx; Package fn]
          then Stdout r1 ++ "/" ++ Package fn
          else Stdout r1)
    /\ path = rootMain ctx.
Proof.
  intros H. unfold issued in H. cbn [history] in H.
  destruct (ExecWithErr ctx h cmdModInit []) as [r0|res0 e0] eqn:Hinit.
  2:{ exfalso. revert H. unfold createMainGoMod. unfold_monad.
      unfold cmdModInit in Hinit. rewrite Hinit. norm_history.
      rewrite skipn_length_app. intros [H|[]]; discriminate. }
  destruct (ExecWithErr ctx (h ++ [Exec cmdModInit []]) cmdListModule
              [WithWorkDir (Source fn)]) as [r1|res1 e1] eqn:Hlist.
  2:{ exfalso. revert H. unfold createMainGoMod. unfold_monad.
      unfold_module. rewrite Hinit. norm_history. rewrite Hlist.
      norm_history. rewrite skipn_length_app.
      intros [H|[H|[]]]; discriminate. }
  exists r1. split; [reflexivity|].
  destruct (strings.Contains (firstSegment (Stdout r1)) ".") eqn:Hdot.
  2:{ exfalso. revert H.
      rewrite (proj1 (createMainGoMod_rejects_dotless ctx fn h l r0 r1
                        Hinit Hlist Hdot)).
      cbn [snd history]. rewrite skipn_length_app.
      intros [H|[H|[]]]; discriminate. }
  destruct (ExecWithErr ctx (h ++ identityQuery fn)
              (cmdRequire (Stdout r1)) []) as [r2|res2 e2] eqn:Hreq.
  2:{ exfalso. revert H. unfold createMainGoMod. unfold_monad.
      unfold_module. norm_hyps. rewrite Hinit. norm_history.
      rewrite Hlist. norm_history. rewrite Split_nonempty.
      change (hd "" (strings.Split (Stdout r1) "/"))
        with (firstSegment (Stdout r1)).
      rewrite Hdot. cbn [negb andb]. norm_history. rewrite Hreq.
      norm_history. rewrite skipn_length_app.
      intros [H|[H|[H|[]]]]; discriminate. }
  destruct (ExecWithErr ctx
              (h ++ identityQuery fn ++ [Exec (cmdRequire (Stdout r1)) []])
              (cmdReplace (Stdout r1) (Source fn)) [])
    as [r3|res3 e3] eqn:Hrep.
  2:{ exfalso. revert H. unfold createMainGoMod. unfold_monad.
      unfold_module. norm_hyps. rewrite Hinit. norm_history.
      rewrite Hlist. norm_history. rewrite Split_nonempty.
      change (hd "" (strings.Split (Stdout r1) "/"))
        with (firstSegment (Stdout r1)).
      rewrite Hdot. cbn [negb andb]. norm_history. rewrite Hreq.
      norm_history. rewrite Hrep. norm_history. rewrite skipn_length_app.
      intros [H|[H|[H|[H|[]]]]]; discriminate. }
  rewrite (createMainGoMod_wired ctx fn h l r0 r1 r2 r3
             Hinit Hlist Hdot Hreq Hrep) in H.
  destruct (resolveAndRender_effects ctx
              (mkFnInfo (Source fn) (Target fn)
                 (if FileExists ctx (h ++ identityQuery fn)
                       [ApplicationRoot ctx; Package fn]
                  then Stdout r1 ++ "/" ++ Package fn else Stdout r1))
              (h ++ identityQuery fn ++ dependencyEdits fn (Stdout r1)) l)
    as (d & Es & Hx).
  rewrite Es in H. cbn [history] in H.
  rewrite <- !app_assoc, skipn_length_app in H.
  apply in_app_or in H. destruct H as [H|H].
  { destruct H as [H|[H|[]]]; discriminate. }
  apply in_app_or in H. destruct H as [H|H].
  { destruct H as [H|[H|[]]]; discriminate. }
  destruct (Hx _ _ _ H) as [-> ->]. split; reflexivity.
Qed.

(** C6, on two concrete builds that render their entry point: the package
    directory at the application root, and not. *)
Lemma createMainGoMod_import_path_witness :
  let inRoot := demoContext true (Some 420%Z) false false true
                  "example.com/fn" unknownDependency in
  let atModuleRoot := demoContext true (Some 420%Z) false false false
                        "example.com/fn" unknownDependency in
  (In (Execute tmplV1_1 "/workspace/main.go"
         (mkFnInfo (Source demoFn) "Handler" "example.com/fn/fn"))
      (issued (createMainGoMod inRoot demoFn) start)
   /\ exists r1,
        ExecWithErr inRoot [Exec cmdModInit []] cmdListModule
          [WithWorkDir (Source demoFn)] = ExecOk r1
        /\ "example.com/fn/fn" = Stdout r1 ++ "/" ++ "fn"
        /\ "/workspace/main.go" = "/workspace/main.go")
  /\
  (In (Execute tmplV1_1 "/workspace/main.go"
         (mkFnInfo (Source demoFn) "Handler" "example.com/fn"))
      (issued (createMainGoMod atModuleRoot demoFn) start)
   /\ exists r1,
        ExecWithErr atModuleRoot [Exec cmdModInit []] cmdListModule
          [WithWorkDir (Source demoFn)] = ExecOk r1
        /\ "example.com/fn" = Stdout r1
        /\ "/workspace/main.go" = "/workspace/main.go").
Proof.
  cbv zeta. split.
  - assert (H : In (Execute tmplV1_1 "/workspace/main.go"
                      (mkFnInfo (Source demoFn) "Handler"
                         "example.com/fn/fn"))
                   (issued (createMainGoMod
                              (demoContext true (Some 420%Z) false false true
                                 "example.com/fn" unknownDependency)
                              demoFn) start)).
    { vm_compute. auto 12. }
    split; [exact H|].
    exact (createMainGoMod_import_path
             (demoContext true (Some 420%Z) false false true "example.com/fn"
                unknownDependency)
             demoFn [] emptyLayer tmplV1_1 "/workspace/main.go"
             (mkFnInfo (Source demoFn) "Handler" "example.com/fn/fn") H).
  - assert (H : In (Execute tmplV1_1 "/workspace/main.go"
                      (mkFnInfo (Source demoFn) "Handler" "example.com/fn"))
                   (issued (createMainGoMod
                              (demoContext true (Some 420%Z) false false false
                                 "example.com/fn" unknownDependency)
                              demoFn) start)).
    { vm_compute. auto 12. }
    split; [exact H|].
    exact (createMainGoMod_import_path
             (demoContext true (Some 420%Z) false false false
                "example.com/fn" unknownDependency)
             demoFn [] emptyLayer tmplV1_1 "/workspace/main.go"
             (mkFnInfo (Source demoFn) "Handler" "example.com/fn") H).
Defined.

(** ** The strategy decision (C1, C10) *)

(** No error returned by the module path is the one of the writability
    check. *)
Lemma createMainGoMod_errors (ctx : Context) (fn : fnInfo) (s : State)
    (e : error) :
  fst (createMainGoMod ctx fn s) = Returns (Some e) ->
  e <> errNotWritable.
Proof.
  destruct s as [h l].
  unfold createMainGoMod, frameworkSpecifiedVersion, createMainGoFile,
    errNotWritable.
  run_all.
  all: intros H; inversion H; subst; discriminate.
Qed.

Lemma createMainVendored_errors (ctx : Context) (fn : fnInfo) (s : State)
    (e : error) :
  fst (createMainVendored ctx fn s) = Returns (Some e) ->
  e <> errNotWritable.
Proof.
  destruct s as [h l].
  unfold createMainVendored, createMainGoFile, errNotWritable.
  run_all.
  all: intros H; inversion H; subst; discriminate.
Qed.

Lemma buildFn_finish_errors (ctx : Context) (m : M (option error))
    (s : State) :
  (forall e, fst (m s) = Returns (Some e) -> e <> errNotWritable) ->
  fst (buildFn_finish ctx m s) <> Returns (Some errNotWritable).
Proof.
  intros Hm. unfold buildFn_finish. unfold bind at 1.
  destruct (m s) as [[[e|]|e] s'] eqn:E.
  - unfold ret. cbn [fst]. intros H. inversion H; subst.
    apply (Hm errNotWritable); reflexivity.
  - unfold_monad. discriminate.
  - cbn [fst]. discriminate.
Qed.

Lemma ownerWriteClear_spec (mode : Z) :
  ownerWriteClear mode = true <-> Z.land (Perm mode) 128 = 0%Z.
Proof. unfold ownerWriteClear. apply Z.eqb_eq. Qed.

(** The decision of [buildFn] once the source is relocated. *)
Lemma buildFn_decides (ctx : Context) (s0 : State) (fn : fnInfo) h l :
  buildFn_relocate ctx s0 = (Returns fn, mkState h l) ->
  buildFn ctx s0
  = if negb (FileExists ctx h [Join ctx [Source fn; "go.mod"]])
    then if negb (SupportsNoGoMod ctx h)
         then (Returns (Some errNoGoMod), mkState h l)
         else buildFn_finish ctx (createMainVendored ctx fn) (mkState h l)
    else if match Stat ctx h (Join ctx [Source fn; "go.mod"]) with
            | Some mode => ownerWriteClear mode
            | None => false
            end
         then (Returns (Some errNotWritable), mkState h l)
         else buildFn_finish ctx (createMainGoMod ctx fn) (mkState h l).
Proof.
  intros Hrel. unfold buildFn. unfold bind at 1. rewrite Hrel.
  unfold buildFn_strategy. unfold_monad.
  destruct (FileExists ctx h [Join ctx [Source fn; "go.mod"]]);
    cbn [negb]; norm_history.
  - destruct (Stat ctx h (Join ctx [Source fn; "go.mod"])) as [mode|];
      [destruct (ownerWriteClear mode)|]; reflexivity.
  - destruct (SupportsNoGoMod ctx h); reflexivity.
Qed.

(** C1: the strategy decision of [buildFn], once the source is relocated
    and [fn] built, follows the four-case table.  No go.mod and a tool
    chain without support for that: the build fails with a user error.  No
    go.mod and a tool chain that supports it: the rest of the build is
    [createMainVendored].  A go.mod whose owner-write bit is clear: the
    build fails with a user error.  A go.mod whose owner-write bit is set:
    the rest of the build is [createMainGoMod]. *)
Theorem buildFn_strategy_table (ctx : Context) (s0 : State) (fn : fnInfo)
    (h : list event) (l : Layer) :
  buildFn_relocate ctx s0 = (Returns fn, mkState h l) ->
  let goMod := Join ctx [Source fn; "go.mod"] in
  (FileExists ctx h [goMod] = false ->
   SupportsNoGoMod ctx h = false ->
   buildFn ctx s0 = (Returns (Some errNoGoMod), mkState h l))
  /\
  (FileExists ctx h [goMod] = false ->
   SupportsNoGoMod ctx h = true ->
   buildFn ctx s0
   = buildFn_finish ctx (createMainVendored ctx fn) (mkState h l))
  /\
  (FileExists ctx h [goMod] = true ->
   forall mode,
     Stat ctx h goMod = Some mode ->
     Z.land (Perm mode) 128 = 0%Z ->
     buildFn ctx s0 = (Returns (Some errNotWritable), mkState h l))
  /\
  (FileExists ctx h [goMod] = true ->
   forall mode,
     Stat ctx h goMod = Some mode ->
     Z.land (Perm mode) 128 <> 0%Z ->
     buildFn ctx s0
     = buildFn_finish ctx (createMainGoMod ctx fn) (mkState h l)).
Proof.
  intros Hrel. cbv zeta. rewrite (buildFn_decides ctx s0 fn h l Hrel).
  repeat split.
  - intros -> ->. reflexivity.
  - intros -> ->. reflexivity.
  - intros -> mode -> Hbit. apply ownerWriteClear_spec in Hbit.
    rewrite Hbit. reflexivity.
  - intros -> mode -> Hbit.
    destruct (ownerWriteClear mode) eqn:Hc; [|reflexivity].
    apply ownerWriteClear_spec in Hc. contradiction.
Qed.

(** C10: [buildFn] fails with the not-writable error exactly when the
    go.mod is present (the check of line 97 is the alternative of its
    absence), the stat of the go.mod succeeds and the owner-write bit
    (0200) of its permissions is clear.  When the stat itself fails the
    build does not fail at this check: its rest is the module path. *)
Theorem buildFn_not_writable_iff (ctx : Context) (s0 : State) (fn : fnInfo)
    (h : list event) (l : Layer) :
  buildFn_relocate ctx s0 = (Returns fn, mkState h l) ->
  let goMod := Join ctx [Source fn; "go.mod"] in
  (fst (buildFn ctx s0) = Returns (Some errNotWritable)
   <-> FileExists ctx h [goMod] = true
       /\ exists mode,
            Stat ctx h goMod = Some mode /\ Z.land (Perm mode) 128 = 0%Z)
  /\
  (FileExists ctx h [goMod] = true ->
   Stat ctx h goMod = None ->
   buildFn ctx s0
   = buildFn_finish ctx (createMainGoMod ctx fn) (mkState h l)).
Proof.
  intros Hrel. cbv zeta.
  rewrite (buildFn_decides ctx s0 fn h l Hrel).
  split; [split|].
  - destruct (FileExists ctx h [Join ctx [Source fn; "go.mod"]]);
      cbn [negb].
    + destruct (Stat ctx h (Join ctx [Source fn; "go.mod"])) as [mode|].
      * destruct (ownerWriteClear mode) eqn:Hc.
        -- intros _. split; [reflexivity|]. exists mode.
           split; [reflexivity|]. apply ownerWriteClear_spec. exact Hc.
        -- intros H. exfalso. revert H. apply buildFn_finish_errors.
           apply createMainGoMod_errors.
      * intros H. exfalso. revert H. apply buildFn_finish_errors.
        apply createMainGoMod_errors.
    + destruct (SupportsNoGoMod ctx h); cbn [negb].
      * intros H. exfalso. revert H. apply buildFn_finish_errors.
        apply createMainVendored_errors.
      * cbn [fst]. discriminate.
  - intros (-> & mode & -> & Hbit). apply ownerWriteClear_spec in Hbit.
    rewrite Hbit. reflexivity.
  - intros -> ->. reflexivity.
Qed.

(** C1, on four concrete builds: no go.mod and no support for that; no
    go.mod with support; a go.mod of mode 0444; a go.mod of mode 0644. *)
Lemma buildFn_strategy_table_witness :
  let unsupported := demoContext false None false false false
                       "example.com/fn" unknownDependency in
  let legacy := demoContext false None true false false
                  "example.com/fn" unknownDependency in
  let readOnly := demoContext true (Some 292%Z) false false false
                    "example.com/fn" unknownDependency in
  let writable := demoContext true (Some 420%Z) false false false
                    "example.com/fn" unknownDependency in
  fst (buildFn unsupported start) = Returns (Some errNoGoMod)
  /\ buildFn legacy start
     = buildFn_finish legacy (createMainVendored legacy demoFn)
         (snd (buildFn_relocate legacy start))
  /\ fst (buildFn readOnly start) = Returns (Some errNotWritable)
  /\ buildFn writable start
     = buildFn_finish writable (createMainGoMod writable demoFn)
         (snd (buildFn_relocate writable start)).
Proof.
  cbv zeta. split; [|split; [|split]].
  - destruct (buildFn_strategy_table
                (demoContext false None false false false
                   "example.com/fn" unknownDependency)
                start demoFn _ _ eq_refl) as (A & _).
    exact (f_equal fst (A eq_refl eq_refl)).
  - destruct (buildFn_strategy_table
                (demoContext false None true false false
                   "example.com/fn" unknownDependency)
                start demoFn _ _ eq_refl) as (_ & B & _).
    exact (B eq_refl eq_refl).
  - destruct (buildFn_strategy_table
                (demoContext true (Some 292%Z) false false false
                   "example.com/fn" unknownDependency)
                start demoFn _ _ eq_refl) as (_ & _ & C & _).
    exact (f_equal fst (C eq_refl 292%Z eq_refl eq_refl)).
  - destruct (buildFn_strategy_table
                (demoContext true (Some 420%Z) false false false
                   "example.com/fn" unknownDependency)
                start demoFn _ _ eq_refl) as (_ & _ & _ & D).
    refine (D eq_refl 420%Z eq_refl _). discriminate.
Defined.

(** C10, on three concrete builds with a go.mod: of mode 0444, of mode
    0644, and one whose stat fails. *)
Lemma buildFn_not_writable_iff_witness :
  let readOnly := demoContext true (Some 292%Z) false false false
                    "example.com/fn" unknownDependency in
  let writable := demoContext true (Some 420%Z) false false false
                    "example.com/fn" unknownDependency in
  let unreadable := demoContext true None false false false
                      "example.com/fn" unknownDependency in
  fst (buildFn readOnly start) = Returns (Some errNotWritable)
  /\ fst (buildFn writable start) <> Returns (Some errNotWritable)
  /\ buildFn unreadable start
     = buildFn_finish unreadable (createMainGoMod unreadable demoFn)
         (snd (buildFn_relocate unreadable start)).
Proof.
  cbv zeta. split; [|split].
  - destruct (buildFn_not_writable_iff
                (demoContext true (Some 292%Z) false false false
                   "example.com/fn" unknownDependency)
                start demoFn _ _ eq_refl) as ([_ A] & _).
    apply A. split; [reflexivity|]. exists 292%Z. split; reflexivity.
  - destruct (buildFn_not_writable_iff
                (demoContext true (Some 420%Z) false false false
                   "example.com/fn" unknownDependency)
                start demoFn _ _ eq_refl) as ([A _] & _).
    intros H. destruct (A H) as (_ & mode & Hm & Hbit).
    inversion Hm; subst. discriminate.
  - destruct (buildFn_not_writable_iff
                (demoContext true None false false false
                   "example.com/fn" unknownDependency)
                start demoFn _ _ eq_refl) as (_ & B).
    exact (B eq_refl eq_refl).
Defined.

(** * Further properties of [main.go] *)

(** ** The renderer *)

Lemma selectTemplate_atLeast (v : semver.Version) :
  selectTemplate v v1_1_0
  = if atLeast_1_1_0 v then tmplV1_1 else tmplV0.
Proof.
  unfold selectTemplate, semver.GE, semver.Compare, atLeast_1_1_0, v1_1_0.
  cbn [semver.Major semver.Minor semver.Patch semver.Pre].
  destruct (N.eqb_spec (semver.Major v) 1) as [E1|N1];
    destruct (N.ltb_spec 1 (semver.Major v)) as [L1|G1];
    cbn [negb andb orb]; try lia; try reflexivity.
  destruct (N.eqb_spec (semver.Minor v) 1) as [E2|N2];
    destruct (N.ltb_spec 1 (semver.Minor v)) as [L2|G2];
    cbn [negb andb orb]; try lia; try reflexivity.
  destruct (N.eqb_spec (semver.Patch v) 0) as [E3|N3];
    destruct (N.ltb_spec 0 (semver.Patch v)) as [L3|G3];
    cbn [negb andb orb]; try lia; try reflexivity.
  destruct (semver.Pre v); reflexivity.
Qed.

(** X1: for every version string that parses, [createMainGoFile] renders
    exactly one template, and it is V1_1 exactly when the version is
    1.1.0 or later by its components: major above 1, or major 1 and minor
    above 1, or 1.1 with a patch above 0, or 1.1.0 without prerelease.
    Every prerelease of 1.1.0 itself gets V0. *)
Theorem createMainGoFile_threshold_components (ctx : Context) (fn : fnInfo)
    (main version : string) (v : semver.Version) (s : State) :
  semver.ParseTolerant version = inl v ->
  rendered (issued (createMainGoFile ctx fn main version) s)
  = [if atLeast_1_1_0 v then tmplV1_1 else tmplV0].
Proof.
  intros Hv. destruct s as [h l].
  erewrite issued_state.
  2:{ rewrite (createMainGoFile_parsed ctx fn main version v h l Hv).
      reflexivity. }
  cbn [rendered]. rewrite selectTemplate_atLeast. reflexivity.
Qed.

(** X1, on a later patch with a prerelease and on a prerelease of 1.1.0. *)
Lemma createMainGoFile_threshold_components_witness :
  let ctx := demoContext true None false false false "" unknownDependency in
  rendered (issued (createMainGoFile ctx demoFn "main.go" "v1.1.1-beta") start)
  = [tmplV1_1]
  /\ rendered
       (issued (createMainGoFile ctx demoFn "main.go" "1.1.0-alpha.1") start)
     = [tmplV0].
Proof.
  cbv zeta. split.
  - exact (createMainGoFile_threshold_components
             (demoContext true None false false false "" unknownDependency)
             demoFn "main.go" "v1.1.1-beta" _ start eq_refl).
  - exact (createMainGoFile_threshold_components
             (demoContext true None false false false "" unknownDependency)
             demoFn "main.go" "1.1.0-alpha.1" _ start eq_refl).
Defined.

(** X2: [createMainGoFile] creates the destination before it looks at the
    version.  For a version string that does not parse it returns the
    parse error, wrapped with the offending string, after creating and
    closing the file: nothing is rendered into it and no command runs. *)
Theorem createMainGoFile_unparsable (ctx : Context) (fn : fnInfo)
    (main version : string) (e : semver.ParseError) (s : State) :
  semver.ParseTolerant version = inr e ->
  fst (createMainGoFile ctx fn main version s)
  = Returns (Some (Errorf_w
               ("unable to parse framework version string " ++ version)
               (SemverError e)))
  /\ issued (createMainGoFile ctx fn main version) s
     = [CreateFile main; Close main].
Proof.
  intros Hv. destruct s as [h l].
  rewrite (createMainGoFile_unparsed ctx fn main version e h l Hv).
  split; [reflexivity|].
  eapply issued_state.
  rewrite (createMainGoFile_unparsed ctx fn main version e h l Hv).
  reflexivity.
Qed.

(** X2, on the version strings [latest] and [1.2-rc]. *)
Lemma createMainGoFile_unparsable_witness :
  let ctx := demoContext true None false false false "" unknownDependency in
  issued (createMainGoFile ctx demoFn "main.go" "latest") start
  = [CreateFile "main.go"; Close "main.go"]
  /\ issued (createMainGoFile ctx demoFn "main.go" "1.2-rc") start
     = [CreateFile "main.go"; Close "main.go"].
Proof.
  cbv zeta. split.
  - exact (proj2 (createMainGoFile_unparsable
                    (demoContext true None false false false ""
                       unknownDependency)
                    demoFn "main.go" "latest" _ start eq_refl)).
  - exact (proj2 (createMainGoFile_unparsable
                    (demoContext true None false false false ""
                       unknownDependency)
                    demoFn "main.go" "1.2-rc" _ start eq_refl)).
Defined.

(** X3: [createMainGoFile] never ends the build; it returns no error
    exactly when the version parses and the selected template executes
    without error, and whatever happens the file it created is closed as
    its last effect. *)
Theorem createMainGoFile_result (ctx : Context) (fn : fnInfo)
    (main version : string) (h : list event) (l : Layer) :
  let run := createMainGoFile ctx fn main version (mkState h l) in
  (exists r, fst run = Returns r)
  /\ (fst run = Returns None
      <-> exists v,
            semver.ParseTolerant version = inl v
            /\ Render ctx (h ++ [CreateFile main])
                 (selectTemplate v v1_1_0) main fn = None)
  /\ exists body,
       issued (createMainGoFile ctx fn main version) (mkState h l)
       = (CreateFile main :: body ++ [Close main])%list.
Proof.
  cbv zeta.
  destruct (semver.ParseTolerant version) as [v|e] eqn:Hv.
  - rewrite (createMainGoFile_parsed ctx fn main version v h l Hv).
    cbn [fst]. split; [eexists; reflexivity|]. split.
    + split.
      * intros H. exists v. split; [reflexivity|].
        destruct (Render ctx (h ++ [CreateFile main])
                    (selectTemplate v v1_1_0) main fn);
          [discriminate|reflexivity].
      * intros (v' & Ev & Hr). inversion Ev; subst v'.
        rewrite Hr. reflexivity.
    + eexists [_]. eapply issued_state.
      rewrite (createMainGoFile_parsed ctx fn main version v h l Hv).
      reflexivity.
  - rewrite (createMainGoFile_unparsed ctx fn main version e h l Hv).
    cbn [fst]. split; [eexists; reflexivity|]. split.
    + split; [discriminate|]. intros (v' & Ev & _). discriminate.
    + exists []. eapply issued_state.
      rewrite (createMainGoFile_unparsed ctx fn main version e h l Hv).
      reflexivity.
Qed.

(** ** The framework lookup *)


(** ** The module path *)

Lemma firstSegment_dot_aux (n : nat) (s : string) :
  strings.Contains (fst (strings.splitAt (S n) "/" s)) "."
  = dotBeforeSlash s.
Proof.
  induction s as [|c s IH]; [reflexivity|].
  cbn [strings.splitAt dotBeforeSlash].
  destruct (Ascii.eqb_spec c "/") as [->|Hs].
  - destruct (strings.splitAt n "/" s). reflexivity.
  - destruct (strings.splitAt (S n) "/" s) as [hd tl] eqn:E.
    cbn [fst] in *. cbn [strings.Contains prefix].
    destruct (Ascii.eqb_spec c ".") as [->|Hd].
    + destruct (ascii_dec "." ".") as [D|D]; [|congruence].
      destruct hd; reflexivity.
    + destruct (ascii_dec "." c) as [D|D]; [congruence|].
      cbn [orb]. exact IH.
Qed.

(** The test of line 116, read on the module path itself. *)
Lemma firstSegment_dot (s : string) :
  strings.Contains (firstSegment s) "." = dotBeforeSlash s.
Proof.
  unfold firstSegment, strings.Split.
  destruct s as [|c s]; [reflexivity|].
  cbn [String.length].
  rewrite <- (firstSegment_dot_aux (String.length s) (String c s)).
  destruct (strings.splitAt (S (String.length s)) "/" (String c s)).
  reflexivity.
Qed.

(** Once its module path is accepted, the module path returns no user
    error. *)
Lemma createMainGoMod_accepted (ctx : Context) (fn : fnInfo) h l r0 r1 msg :
  ExecWithErr ctx h cmdModInit [] = ExecOk r0 ->
  ExecWithErr ctx (h ++ [Exec cmdModInit []]) cmdListModule
    [WithWorkDir (Source fn)] = ExecOk r1 ->
  strings.Contains (firstSegment (Stdout r1)) "." = true ->
  fst (createMainGoMod ctx fn (mkState h l)) <> Returns (Some (UserErrorf msg)).
Proof.
  intros Hinit Hlist Hdot. unfold_module.
  unfold createMainGoMod. unfold_monad.
  rewrite Hinit. norm_history. rewrite Hlist. norm_history.
  rewrite Split_nonempty.
  change (hd "" (strings.Split (Stdout r1) "/"))
    with (firstSegment (Stdout r1)).
  rewrite Hdot. cbn [negb andb].
  unfold frameworkSpecifiedVersion, createMainGoFile. run_all.
  all: discriminate.
Qed.

Lemma createMainGoMod_rejected (ctx : Context) (fn : fnInfo) h l r0 r1 :
  ExecWithErr ctx h cmdModInit [] = ExecOk r0 ->
  ExecWithErr ctx (h ++ [Exec cmdModInit []]) cmdListModule
    [WithWorkDir (Source fn)] = ExecOk r1 ->
  strings.Contains (firstSegment (Stdout r1)) "." = false ->
  fst (createMainGoMod ctx fn (mkState h l))
  = Returns (Some (errModulePath (Stdout r1))).
Proof.
  intros Hinit Hlist Hdot. unfold_module.
  unfold createMainGoMod. unfold_monad.
  rewrite Hinit. norm_history. rewrite Hlist. norm_history.
  rewrite Split_nonempty.
  change (hd "" (strings.Split (Stdout r1) "/"))
    with (firstSegment (Stdout r1)).
  rewrite Hdot. reflexivity.
Qed.

(** X5: once [go mod init] and the identity query succeeded,
    [createMainGoMod] rejects the module path with the user error exactly
    when, reading the path from the left, no dot is met before the first
    slash (or before the end, without a slash).  An accepted path never
    leads to a user error. *)
Theorem createMainGoMod_rejects_iff (ctx : Context) (fn : fnInfo)
    (h : list event) (l : Layer) (r0 r1 : ExecResult) :
  ExecWithErr ctx h cmdModInit [] = ExecOk r0 ->
  ExecWithErr ctx (h ++ [Exec cmdModInit []]) cmdListModule
    [WithWorkDir (Source fn)] = ExecOk r1 ->
  (fst (createMainGoMod ctx fn (mkState h l))
   = Returns (Some (errModulePath (Stdout r1)))
   <-> dotBeforeSlash (Stdout r1) = false)
  /\ (dotBeforeSlash (Stdout r1) = true ->
      forall msg,
        fst (createMainGoMod ctx fn (mkState h l))
        <> Returns (Some (UserErrorf msg))).
Proof.
  intros Hinit Hlist. rewrite <- firstSegment_dot. split; [split|].
  - intros H.
    destruct (strings.Contains (firstSegment (Stdout r1)) ".") eqn:Hdot;
      [|reflexivity].
    exfalso. revert H.
    apply (createMainGoMod_accepted ctx fn h l r0 r1 _ Hinit Hlist Hdot).
  - apply (createMainGoMod_rejected ctx fn h l r0 r1 Hinit Hlist).
  - intros Hdot msg.
    apply (createMainGoMod_accepted ctx fn h l r0 r1 msg Hinit Hlist Hdot).
Qed.

(** X5, on four module paths: a domain, a path with a dot after the first
    slash only, a name without dot, and the empty path. *)
Lemma createMainGoMod_rejects_iff_witness :
  let build fnMod :=
    fst (createMainGoMod
           (demoContext true (Some 420%Z) false false false fnMod
              unknownDependency)
           demoFn start) in
  build "example.com/fn" <> Returns (Some (errModulePath "example.com/fn"))
  /\ build "fn/example.com" = Returns (Some (errModulePath "fn/example.com"))
  /\ build "fn" = Returns (Some (errModulePath "fn"))
  /\ build "" = Returns (Some (errModulePath "")).
Proof.
  cbv zeta. split; [|split; [|split]].
  - intros H.
    assert (D := proj1 (proj1 (createMainGoMod_rejects_iff
                 (demoContext true (Some 420%Z) false false false
                    "example.com/fn" unknownDependency)
                 demoFn [] emptyLayer
                 (mkExecResult "" "") (mkExecResult "example.com/fn" "")
                 eq_refl eq_refl)) H).
    discriminate D.
  - exact (proj2 (proj1 (createMainGoMod_rejects_iff
                   (demoContext true (Some 420%Z) false false false
                      "fn/example.com" unknownDependency)
                   demoFn [] emptyLayer
                   (mkExecResult "" "") (mkExecResult "fn/example.com" "")
                   eq_refl eq_refl)) eq_refl).
  - exact (proj2 (proj1 (createMainGoMod_rejects_iff
                   (demoContext true (Some 420%Z) false false false
                      "fn" unknownDependency)
                   demoFn [] emptyLayer
                   (mkExecResult "" "") (mkExecResult "fn" "")
                   eq_refl eq_refl)) eq_refl).
  - exact (proj2 (proj1 (createMainGoMod_rejects_iff
                   (demoContext true (Some 420%Z) false false false
                      "" unknownDependency)
                   demoFn [] emptyLayer
                   (mkExecResult "" "") (mkExecResult "" "")
                   eq_refl eq_refl)) eq_refl).
Defined.

(** X6: when the wiring succeeded and the framework lookup fails for a
    reason other than an unknown dependency, [createMainGoMod] returns
    that failure wrapped with its context.  The lookup is its last effect:
    the framework is not added and no entry point is created. *)
Theorem createMainGoMod_lookup_failure (ctx : Context) (fn : fnInfo)
    (h : list event) (l : Layer) (r0 r1 r2 r3 : ExecResult)
    (res : option ExecResult) (err : error) :
  let fnMod := Stdout r1 in
  ExecWithErr ctx h cmdModInit [] = ExecOk r0 ->
  ExecWithErr ctx (h ++ [Exec cmdModInit []]) cmdListModule
    [WithWorkDir (Source fn)] = ExecOk r1 ->
  strings.Contains (firstSegment fnMod) "." = true ->
  ExecWithErr ctx (h ++ identityQuery fn) (cmdRequire fnMod) [] = ExecOk r2 ->
  ExecWithErr ctx (h ++ identityQuery fn ++ [Exec (cmdRequire fnMod) []])
    (cmdReplace fnMod (Source fn)) [] = ExecOk r3 ->
  ExecWithErr ctx (h ++ identityQuery fn ++ dependencyEdits fn fnMod)
    cmdListFramework [WithWorkDir (Source fn)] = ExecFail res err ->
  (forall r, res = Some r ->
     strings.Contains (Stderr r) "not a known dependency" = false) ->
  createMainGoMod ctx fn (mkState h l)
  = (Returns (Some (Errorf_w
               "checking for functions framework dependency in go.mod" err)),
     mkState
       (h ++ identityQuery fn ++ dependencyEdits fn fnMod
          ++ [Exec cmdListFramework [WithWorkDir (Source fn)]]) l).
Proof.
  cbv zeta. intros Hinit Hlist Hdot Hreq Hrep Hlook Hpat.
  rewrite (createMainGoMod_wired ctx fn h l r0 r1 r2 r3
             Hinit Hlist Hdot Hreq Hrep).
  unfold resolveAndRender, frameworkSpecifiedVersion. unfold_monad.
  cbn [Source]. unfold cmdListFramework in Hlook. rewrite Hlook.
  destruct res as [r|].
  - rewrite (Hpat r eq_refl).
    unfold identityQuery, dependencyEdits, cmdListFramework.
    norm_history. reflexivity.
  - unfold identityQuery, dependencyEdits, cmdListFramework.
    norm_history. reflexivity.
Qed.

(** X6, on the concrete build whose lookup finds no main module. *)
Lemma createMainGoMod_lookup_failure_witness :
  fst (createMainGoMod
         (demoContext true (Some 420%Z) false false false "example.com/fn"
            lookupBroken)
         demoFn start)
  = Returns (Some (Errorf_w
              "checking for functions framework dependency in go.mod"
              (ToolError "exit status 1"))).
Proof.
  refine (f_equal fst
            (createMainGoMod_lookup_failure
               (demoContext true (Some 420%Z) false false false
                  "example.com/fn" lookupBroken)
               demoFn [] emptyLayer
               (mkExecResult "" "") (mkExecResult "example.com/fn" "")
               (mkExecResult "" "") (mkExecResult "" "")
               (Some (mkExecResult "" "go: cannot find main module"))
               (ToolError "exit status 1")
               eq_refl eq_refl eq_refl eq_refl eq_refl eq_refl _)).
  intros r E. inversion E. reflexivity.
Defined.


(** X8: whenever the buildpack supplies the framework itself, the entry
    point it renders comes from the V1_1 template.  In the module path,
    a run that adds the framework with [go get] renders no other
    template; in the vendored path, neither does a run that found no
    vendored framework. *)
Theorem supplied_framework_renders_V1_1 (ctx : Context) (fn : fnInfo)
    (h : list event) (l : Layer) :
  (In (Exec cmdGetFramework [WithUserAttribution])
      (issued (createMainGoMod ctx fn) (mkState h l)) ->
   forall tmpl path data,
     In (Execute tmpl path data)
        (issued (createMainGoMod ctx fn) (mkState h l)) ->
     tmpl = tmplV1_1)
  /\
  (FileExists ctx (relocated ctx fn h) [fnFrameworkVendoredPath ctx fn]
   = false ->
   forall tmpl path data,
     In (Execute tmpl path data)
        (issued (createMainVendored ctx fn) (mkState h l)) ->
     tmpl = tmplV1_1).
Proof.
  split.
  - unfold issued. unfold_module.
    unfold createMainGoMod, frameworkSpecifiedVersion, createMainGoFile,
      functionsFrameworkVersion.
    run_all.
    all: repeat match goal with
                | H : semver.ParseTolerant "v1.1.0" = inl _ |- _ =>
                    rewrite ParseTolerant_threshold in H; inversion H; subst;
                    clear H
                end.
    all: norm_history; rewrite skipn_length_app;
      intros Hget tmpl path data Hex; cbn [In] in Hget, Hex.
    all: try (exfalso;
              repeat (destruct Hget as [Hget|Hget]; [discriminate Hget|]);
              exact Hget).
    all: repeat (destruct Hex as [Hex|Hex]; [try discriminate Hex|]);
      try contradiction.
    all: inversion Hex; reflexivity.
  - intros Hin tmpl path data H.
    destruct (createMainVendored_issued ctx fn h l) as [[F _]|[_ E]];
      [congruence|].
    destruct E as [E|[E|E]]; rewrite E in H;
      unfold relocation, excludingBranch, vendoredFile in H;
      cbn [app In] in H;
      repeat (destruct H as [H|H]; [try discriminate H|]);
      try contradiction.
    inversion H. reflexivity.
Qed.

(** X8, on the module path of the concrete build that adds the
    framework, and on its vendored path without a vendored framework. *)
Lemma supplied_framework_renders_V1_1_witness :
  let added := demoContext true (Some 420%Z) false false false
                 "example.com/fn" unknownDependency in
  let fetched := demoContext false None true false false ""
                   unknownDependency in
  (In (Exec cmdGetFramework [WithUserAttribution])
      (issued (createMainGoMod added demoFn) start)
   /\ forall tmpl path data,
        In (Execute tmpl path data)
           (issued (createMainGoMod added demoFn) start) ->
        tmpl = tmplV1_1)
  /\
  (forall tmpl path data,
     In (Execute tmpl path data)
        (issued (createMainVendored fetched demoFn) start) ->
     tmpl = tmplV1_1).
Proof.
  cbv zeta. split.
  - assert (G : In (Exec cmdGetFramework [WithUserAttribution])
                  (issued (createMainGoMod
                             (demoContext true (Some 420%Z) false false false
                                "example.com/fn" unknownDependency)
                             demoFn) start)).
    { vm_compute. auto 12. }
    split; [exact G|].
    exact (proj1 (supplied_framework_renders_V1_1
                    (demoContext true (Some 420%Z) false false false
                       "example.com/fn" unknownDependency)
                    demoFn [] emptyLayer) G).
  - exact (proj2 (supplied_framework_renders_V1_1
                    (demoContext false None true false false ""
                       unknownDependency)
                    demoFn [] emptyLayer) eq_refl).
Defined.

(** ** The build as a whole *)

(** Every run of [buildFn], along all the answers of the collaborators. *)
Lemma buildFn_runs (ctx : Context) (h : list event) (l : Layer) :
  buildFacts ctx h (buildFn ctx (mkState h l)).
Proof.
  unfold buildFn, buildFn_relocate, buildFn_strategy, buildFn_finish,
    extractPackageNameInDir, createMainGoMod, createMainVendored,
    frameworkSpecifiedVersion, createMainGoFile.
  run_all.
  all: norm_history.
  all: unfold buildFacts, preparation, cmdMove,
    fnSource, errNoGoMod, errNotWritable, errModulePath;
    cbv zeta; cbn [fst snd history]; rewrite skipn_length_app;
    cbn [In rendered List.length].
  all: split;
    [first
       [ split;
         [intros _; reflexivity
         |intros _; repeat (first [left; reflexivity|right])]
       | split;
         [intros H; exfalso;
          repeat (destruct H as [H|H]; [discriminate H|]); exact H
         |intros H; discriminate H] ]
    |].
  all: split;
    [intros tmpl path data H;
     repeat (destruct H as [H|H]; [try discriminate H|]);
     try contradiction; inversion H; subst; split; reflexivity
    |].
  all: split; [auto|].
  all: split; [|eexists; reflexivity].
  all: intros msg H; try discriminate H; inversion H; subst;
    first [left; reflexivity | right; left; reflexivity
          | right; right; eexists; reflexivity].
Qed.

(** X9: [buildFn] registers the web process exactly when it returns no
    error: a build that returns an error or ends early registers none. *)
Theorem buildFn_web_process (ctx : Context) (h : list event) (l : Layer) :
  In (AddWebProcess [golang_OutBin ctx]) (issued (buildFn ctx) (mkState h l))
  <-> fst (buildFn ctx (mkState h l)) = Returns None.
Proof. exact (proj1 (buildFn_runs ctx h l)). Qed.

(** X10: in both strategies, whatever [buildFn] renders receives the
    function target read from the environment, unchanged, and as source
    the reserved sub-directory of the application root (in the vendored
    path also after the directory was renamed away); and a build renders
    at most one entry point. *)
Theorem buildFn_template_data (ctx : Context) (h : list event) (l : Layer) :
  (forall tmpl path data,
     In (Execute tmpl path data) (issued (buildFn ctx) (mkState h l)) ->
     Source data = fnSource ctx
     /\ Target data = Getenv ctx (env_FunctionTarget ctx))
  /\ (List.length (rendered (issued (buildFn ctx) (mkState h l))) <= 1)%nat.
Proof.
  pose proof (buildFn_runs ctx h l) as R. unfold buildFacts in R.
  cbv zeta in R. destruct R as (_ & A & B & _). split; assumption.
Qed.

(** X10, on the module path of the concrete build. *)
Lemma buildFn_template_data_witness :
  let ctx := demoContext true (Some 420%Z) false false false
               "example.com/fn" unknownDependency in
  In (Execute tmplV1_1 "/workspace/main.go"
        (mkFnInfo "/workspace/serverless_function_source_code" "Handler"
           "example.com/fn"))
     (issued (buildFn ctx) start)
  /\ "/workspace/serverless_function_source_code" = fnSource ctx
  /\ "Handler" = Getenv ctx (env_FunctionTarget ctx).
Proof.
  cbv zeta.
  assert (H : In (Execute tmplV1_1 "/workspace/main.go"
                    (mkFnInfo "/workspace/serverless_function_source_code"
                       "Handler" "example.com/fn"))
                 (issued (buildFn
                            (demoContext true (Some 420%Z) false false false
                               "example.com/fn" unknownDependency))
                    start)).
  { vm_compute. auto 25. }
  split; [exact H|].
  exact (proj1 (buildFn_template_data
                  (demoContext true (Some 420%Z) false false false
                     "example.com/fn" unknownDependency)
                  [] emptyLayer) _ _ _ H).
Defined.

(** X11: the only user errors [buildFn] returns are the three of
    [main.go]: the missing go.mod, the go.mod that is not writable, and
    the module path without a dot in its first element.  Every other
    error it returns is wrapped tool, parse or template failure. *)
Theorem buildFn_user_errors (ctx : Context) (h : list event) (l : Layer)
    (msg : string) :
  fst (buildFn ctx (mkState h l)) = Returns (Some (UserErrorf msg)) ->
  UserErrorf msg = errNoGoMod \/ UserErrorf msg = errNotWritable
  \/ exists fnMod, UserErrorf msg = errModulePath fnMod.
Proof.
  pose proof (buildFn_runs ctx h l) as R. unfold buildFacts in R.
  cbv zeta in R. destruct R as (_ & _ & _ & A & _). apply A.
Qed.

(** X11, on the concrete build whose go.mod has mode 0444. *)
Lemma buildFn_user_errors_witness :
  UserErrorf "go.mod exists but is not writable" = errNoGoMod
  \/ UserErrorf "go.mod exists but is not writable" = errNotWritable
  \/ exists fnMod,
       UserErrorf "go.mod exists but is not writable" = errModulePath fnMod.
Proof.
  exact (buildFn_user_errors
           (demoContext true (Some 292%Z) false false false
              "example.com/fn" unknownDependency)
           [] emptyLayer "go.mod exists but is not writable" eq_refl).
Defined.

(** X12: the relocation comes first.  Every run of [buildFn] starts by
    recreating the reserved sub-directory and running the command that
    moves the function source into it, also a run that is then rejected
    for its go.mod.  When that command fails the build ends there with
    its error; when the extraction helper fails the build ends with the
    helper's error once the helper's cache is removed.  In both cases no
    go.mod is looked for and no strategy runs. *)
Theorem buildFn_relocation_first (ctx : Context) (h : list event) (l : Layer) :
  let moved :=
    (h ++ preparation ctx ++ [Exec cmdMove [WithUserTimingAttribution]])%list in
  let cacheDir := MkTemp ctx moved "" appName in
  (exists rest,
     issued (buildFn ctx) (mkState h l)
     = (preparation ctx
        ++ Exec cmdMove [WithUserTimingAttribution] :: rest)%list)
  /\ (forall res err,
        ExecWithErr ctx (h ++ preparation ctx) cmdMove
          [WithUserTimingAttribution] = ExecFail res err ->
        buildFn ctx (mkState h l) = (Exits err, mkState moved l))
  /\ (forall r res err,
        ExecWithErr ctx (h ++ preparation ctx) cmdMove
          [WithUserTimingAttribution] = ExecOk r ->
        ExecWithErr ctx (moved ++ [TempDir "" appName cacheDir])
          ["go"; "run"; "main"; "-dir"; fnSource ctx]
          [WithEnv ["GOPATH=" ++ scriptDir ctx; "GOCACHE=" ++ cacheDir];
           WithWorkDir (scriptDir ctx); WithUserAttribution]
        = ExecFail res err ->
        buildFn ctx (mkState h l)
        = (Exits err,
           mkState
             (moved ++ [TempDir "" appName cacheDir; runHelper ctx cacheDir;
                        RemoveAll cacheDir]) l)).
Proof.
  cbv zeta. split; [|split].
  - exact (proj2 (proj2 (proj2 (proj2 (buildFn_runs ctx h l))))).
  - intros res err Hmv.
    unfold preparation, cmdMove in *. norm_hyps.
    unfold buildFn, buildFn_relocate. unfold_monad. norm_history.
    rewrite Hmv. norm_history. reflexivity.
  - intros r res err Hmv Hrun.
    unfold preparation, cmdMove, runHelper, fnSource, scriptDir in *.
    norm_hyps.
    unfold buildFn, buildFn_relocate, extractPackageNameInDir.
    unfold_monad. norm_history.
    rewrite Hmv. norm_history. rewrite Hrun. norm_history. reflexivity.
Qed.

(** X12, on the concrete build with a failing move, and with a failing
    helper. *)
Lemma buildFn_relocation_first_witness :
  let ctx := demoContext true (Some 420%Z) false false false
               "example.com/fn" unknownDependency in
  fst (buildFn (failing ctx ["bash"]) start)
  = Exits (ToolError "exit status 1")
  /\ fst (buildFn (failing ctx ["go"; "run"]) start)
     = Exits (ToolError "exit status 1").
Proof.
  cbv zeta. split.
  - exact (f_equal fst
             (proj1 (proj2 (buildFn_relocation_first
                (failing
                   (demoContext true (Some 420%Z) false false false
                      "example.com/fn" unknownDependency) ["bash"])
                [] emptyLayer)) None (ToolError "exit status 1") eq_refl)).
  - exact (f_equal fst
             (proj2 (proj2 (buildFn_relocation_first
                (failing
                   (demoContext true (Some 420%Z) false false false
                      "example.com/fn" unknownDependency) ["go"; "run"])
                [] emptyLayer)) (mkExecResult "" "") None
                (ToolError "exit status 1") eq_refl eq_refl)).
Defined.

(** ** The two strategies and the layer *)

Lemma createMainGoMod_layer (ctx : Context) (fn : fnInfo) h l :
  layer (snd (createMainGoMod ctx fn (mkState h l))) = l.
Proof.
  unfold createMainGoMod, frameworkSpecifiedVersion, createMainGoFile.
  run_all. all: reflexivity.
Qed.

Lemma createMainVendored_layer (ctx : Context) (fn : fnInfo) h l :
  layer (snd (createMainVendored ctx fn (mkState h l))) = vendoredLayer ctx l.
Proof.
  unfold createMainVendored, createMainGoFile, vendoredLayer. run_all.
  all: reflexivity.
Qed.

Lemma buildFn_finish_layer (ctx : Context) (m : M (option error)) (s : State) :
  layer (snd (buildFn_finish ctx m s)) = layer (snd (m s)).
Proof.
  unfold buildFn_finish. unfold bind at 1.
  destruct (m s) as [[[e|]|e] s']; reflexivity.
Qed.

(** X13: every run of [createMainVendored], also one that ends the build
    on a failing command, has renamed the function source into the
    workspace exactly once and never back, and has marked the layer for
    the build with its two overrides.  Whatever it renders goes to the
    entry point of the workspace with the record it was given: the
    package is the extracted name, unchanged. *)
Theorem createMainVendored_moves_once (ctx : Context) (fn : fnInfo)
    (h : list event) (l : Layer) :
  renames (issued (createMainVendored ctx fn) (mkState h l))
  = [(Source fn, Join ctx [gopathSrc ctx; Package fn])]
  /\ layer (snd (createMainVendored ctx fn (mkState h l)))
     = vendoredLayer ctx l
  /\ (forall tmpl path data,
        In (Execute tmpl path data)
           (issued (createMainVendored ctx fn) (mkState h l)) ->
        path = vendoredMain ctx /\ data = fn).
Proof.
  split; [|split].
  - destruct (createMainVendored_issued ctx fn h l)
      as [[_ [E|E]]|[_ [E|[E|E]]]]; rewrite E; reflexivity.
  - apply createMainVendored_layer.
  - intros tmpl path data H.
    destruct (createMainVendored_issued ctx fn h l)
      as [[_ [E|E]]|[_ [E|[E|E]]]]; rewrite E in H;
      unfold relocation, includingBranch, excludingBranch, copyVendor,
        vendoredFile in H;
      cbn [app In] in H;
      repeat (destruct H as [H|H]; [try discriminate H|]);
      try contradiction; inversion H; split; reflexivity.
Qed.

(** X13, on the concrete build with a vendored framework. *)
Lemma createMainVendored_moves_once_witness :
  let ctx := demoContext false None true true false "" unknownDependency in
  In (Execute tmplV0 "/workspace/src/serverless_function_app/main/main.go"
        demoFn)
     (issued (createMainVendored ctx demoFn) start)
  /\ "/workspace/src/serverless_function_app/main/main.go" = vendoredMain ctx
  /\ demoFn = demoFn.
Proof.
  cbv zeta.
  assert (H : In (Execute tmplV0
                    "/workspace/src/serverless_function_app/main/main.go"
                    demoFn)
                 (issued (createMainVendored
                            (demoContext false None true true false ""
                               unknownDependency)
                            demoFn) start)).
  { vm_compute. auto 12. }
  split; [exact H|].
  exact (proj2 (proj2 (createMainVendored_moves_once
                         (demoContext false None true true false ""
                            unknownDependency)
                         demoFn [] emptyLayer)) _ _ _ H).
Defined.

(** X14: the module path keeps to the application root.  Every run of
    [createMainGoMod] leaves the layer as it was, and issues nothing but
    commands, log lines and the creation, rendering and closing of the
    entry point at the application root: it never renames or creates a
    directory, and never creates a temporary directory. *)
Theorem createMainGoMod_footprint (ctx : Context) (fn : fnInfo)
    (h : list event) (l : Layer) :
  layer (snd (createMainGoMod ctx fn (mkState h l))) = l
  /\ forall e,
       In e (issued (createMainGoMod ctx fn) (mkState h l)) ->
       moduleEffect ctx e.
Proof.
  split; [apply createMainGoMod_layer|].
  unfold issued, createMainGoMod, frameworkSpecifiedVersion,
    createMainGoFile, rootMain.
  run_all.
  all: norm_history; rewrite skipn_length_app; intros ev H; cbn [In] in H.
  all: repeat (destruct H as [H|H]; [subst ev; exact I || reflexivity|]);
    contradiction.
Qed.

(** X14, on the concrete build: the entry point it creates. *)
Lemma createMainGoMod_footprint_witness :
  let ctx := demoContext true (Some 420%Z) false false false
               "example.com/fn" unknownDependency in
  In (CreateFile "/workspace/main.go")
     (issued (createMainGoMod ctx demoFn) start)
  /\ moduleEffect ctx (CreateFile "/workspace/main.go").
Proof.
  cbv zeta.
  assert (H : In (CreateFile "/workspace/main.go")
                 (issued (createMainGoMod
                            (demoContext true (Some 420%Z) false false false
                               "example.com/fn" unknownDependency)
                            demoFn) start)).
  { vm_compute. auto 12. }
  split; [exact H|].
  exact (proj2 (createMainGoMod_footprint
                  (demoContext true (Some 420%Z) false false false
                     "example.com/fn" unknownDependency)
                  demoFn [] emptyLayer) _ H).
Defined.

(** X15: once the source is relocated, [buildFn] marks the layer for the
    build and overrides its GOPATH and buildable target exactly when it
    takes the vendored path (no go.mod, on a tool chain that supports
    that), whether or not that path then succeeds; the module path and the
    two rejections leave the layer as it was. *)
Theorem buildFn_layer (ctx : Context) (s0 : State) (fn : fnInfo)
    (h : list event) (l : Layer) :
  buildFn_relocate ctx s0 = (Returns fn, mkState h l) ->
  layer (snd (buildFn ctx s0))
  = if negb (FileExists ctx h [Join ctx [Source fn; "go.mod"]])
       && SupportsNoGoMod ctx h
    then vendoredLayer ctx l else l.
Proof.
  intros Hrel. rewrite (buildFn_decides ctx s0 fn h l Hrel).
  destruct (FileExists ctx h [Join ctx [Source fn; "go.mod"]]);
    cbn [negb andb].
  - destruct (match Stat ctx h (Join ctx [Source fn; "go.mod"]) with
              | Some mode => ownerWriteClear mode
              | None => false
              end); [reflexivity|].
    rewrite buildFn_finish_layer. apply createMainGoMod_layer.
  - destruct (SupportsNoGoMod ctx h); cbn [negb]; [|reflexivity].
    rewrite buildFn_finish_layer. apply createMainVendored_layer.
Qed.

(** X15, on the concrete builds of the vendored and of the module path. *)
Lemma buildFn_layer_witness :
  layer (snd (buildFn
                (demoContext false None true false false "example.com/fn"
                   unknownDependency) start))
  = mkLayer true
      [("GOOGLE_BUILDABLE", "serverless_function_app/main");
       ("GOPATH", "/workspace")]
  /\ layer (snd (buildFn
                   (demoContext true (Some 420%Z) false false false
                      "example.com/fn" unknownDependency) start))
     = emptyLayer.
Proof.
  split.
  - exact (buildFn_layer
             (demoContext false None true false false "example.com/fn"
                unknownDependency)
             start demoFn _ _ eq_refl).
  - exact (buildFn_layer
             (demoContext true (Some 420%Z) false false false
                "example.com/fn" unknownDependency)
             start demoFn _ _ eq_refl).
Defined.

(** ** The writability check *)

(** The check of line 97 reads one bit of the mode. *)
Lemma ownerWriteClear_bit (mode : Z) :
  ownerWriteClear mode = negb (Z.testbit mode 7).
Proof.
  unfold ownerWriteClear, Perm.
  rewrite <- Z.land_assoc. change (Z.land 511 128) with (2 ^ 7)%Z.
  assert (E : Z.land mode (2 ^ 7)
              = if Z.testbit mode 7 then (2 ^ 7)%Z else 0%Z).
  { apply Z.bits_inj'. intros n Hn. rewrite Z.land_spec.
    rewrite Z.pow2_bits_eqb by lia.
    destruct (Z.eqb_spec 7 n) as [<-|Hne].
    - destruct (Z.testbit mode 7) eqn:B; cbn [andb].
      + rewrite Z.pow2_bits_eqb by lia. reflexivity.
      + rewrite Z.bits_0. reflexivity.
    - rewrite andb_false_r. destruct (Z.testbit mode 7).
      + rewrite Z.pow2_bits_eqb by lia.
        symmetry. apply Z.eqb_neq. exact Hne.
      + rewrite Z.bits_0. reflexivity. }
  rewrite E. destruct (Z.testbit mode 7); reflexivity.
Qed.

(** X16: for a go.mod that is present and whose stat succeeds, only the
    owner-write bit of the mode decides: with bit 7 (octal 0200) clear
    [buildFn] fails with the not-writable error, even when group and
    others may write; with it set the module path runs, whatever the other
    permission bits and the bits above the permissions are. *)
Theorem buildFn_owner_write_bit (ctx : Context) (s0 : State) (fn : fnInfo)
    (h : list event) (l : Layer) (mode : Z) :
  buildFn_relocate ctx s0 = (Returns fn, mkState h l) ->
  FileExists ctx h [Join ctx [Source fn; "go.mod"]] = true ->
  Stat ctx h (Join ctx [Source fn; "go.mod"]) = Some mode ->
  (Z.testbit mode 7 = false ->
   buildFn ctx s0 = (Returns (Some errNotWritable), mkState h l))
  /\ (Z.testbit mode 7 = true ->
      buildFn ctx s0
      = buildFn_finish ctx (createMainGoMod ctx fn) (mkState h l)).
Proof.
  intros Hrel Hpresent Hstat.
  rewrite (buildFn_decides ctx s0 fn h l Hrel), Hpresent, Hstat.
  cbn [negb]. rewrite ownerWriteClear_bit.
  split; intros ->; reflexivity.
Qed.

(** X16, on a go.mod of mode 0577 (all but the owner may write) and on one
    of mode 0200. *)
Lemma buildFn_owner_write_bit_witness :
  let others := demoContext true (Some 383%Z) false false false
                  "example.com/fn" unknownDependency in
  let owner := demoContext true (Some 128%Z) false false false
                 "example.com/fn" unknownDependency in
  fst (buildFn others start) = Returns (Some errNotWritable)
  /\ buildFn owner start
     = buildFn_finish owner (createMainGoMod owner demoFn)
         (snd (buildFn_relocate owner start)).
Proof.
  cbv zeta. split.
  - exact (f_equal fst
             (proj1 (buildFn_owner_write_bit
                (demoContext true (Some 383%Z) false false false
                   "example.com/fn" unknownDependency)
                start demoFn _ _ 383%Z eq_refl eq_refl eq_refl) eq_refl)).
  - exact (proj2 (buildFn_owner_write_bit
                (demoContext true (Some 128%Z) false false false
                   "example.com/fn" unknownDependency)
                start demoFn _ _ 128%Z eq_refl eq_refl eq_refl) eq_refl).
Defined.
